(** * Verification of [verl/utils/dataset.py]

    Shallow embedding of the dataset layer of the RLHF pipeline:
    [process_image], [RLHFDataset] (variant A, tabular/remote records) and
    [RLHFSelfDataset] (variant B, JSON annotation records).  The tokenizer,
    the multimodal processor, image decoding and the file system are
    external collaborators; they are gathered in the record [Env]. *)

From Stdlib Require Import Reals Lra Ascii String.
From stdpp Require Import base gmap strings list pretty.

Open Scope string_scope.
Set Warnings "-register-all".

(** ** Python values and dictionaries *)

(** Decoded images: PIL's [width], [height] (non-negative ints) and [mode]. *)
Record image := mk_image {
  img_width : N;
  img_height : N;
  img_mode : string
}.

(** The Python values that flow through the records. *)
Inductive val :=
| VNone
| VBool (b : bool)
| VInt (z : Z)
| VStr (s : string)
| VBytes (b : string)
| VList (l : list val)
| VDict (kvs : list (string * val))
| VImage (i : image)
| VTensor (t : list Z)            (* 1-D integer tensor *)
| VTensor2 (t : list (list Z)).   (* 2-D integer tensor, one list per row *)

(** A record ([example: dict]) of the dataset. *)
Abbreviation dict := (gmap string val).

(** Python exceptions. *)
Inductive exn :=
| KeyError (k : string)
| TypeError (m : string)
| ValueError (m : string)
| AttributeError (m : string)
| ZeroDivisionError
| RuntimeError (m : string)
| IndexError
| OSError (m : string).

Inductive res (A : Type) :=
| Ok (a : A)
| Err (e : exn).
Arguments Ok {A} a.
Arguments Err {A} e.

Global Instance res_ret : MRet res := fun _ a => Ok a.
Global Instance res_bind : MBind res := fun _ _ f r =>
  match r with Ok a => f a | Err e => Err e end.

Fixpoint mapM {A B} (f : A -> res B) (l : list A) : res (list B) :=
  match l with
  | [] => Ok []
  | x :: xs =>
      match f x with
      | Ok y => match mapM f xs with Ok ys => Ok (y :: ys) | Err e => Err e end
      | Err e => Err e
      end
  end.

Fixpoint filterM {A} (f : A -> res bool) (l : list A) : res (list A) :=
  match l with
  | [] => Ok []
  | x :: xs =>
      match f x with
      | Ok b =>
          match filterM f xs with
          | Ok ys => Ok (if b then x :: ys else ys)
          | Err e => Err e
          end
      | Err e => Err e
      end
  end.

(** The state of one [__getitem__] call is the example dict it mutates;
    an exception leaves the mutations done so far in place. *)
Definition M (A : Type) := dict -> res A * dict.

Global Instance M_ret : MRet M := fun A (a : A) (d : dict) => (Ok a, d).
Global Instance M_bind : MBind M := fun A B (f : A -> M B) (m : M A) (d : dict) =>
  match m d with
  | (Ok a, d') => f a d'
  | (Err e, d') => (Err e, d')
  end.

Definition lift {A} (r : res A) : M A := fun d => (r, d).
Definition get_dict : M dict := fun d => (Ok d, d).
(** [k in example] *)
Definition has_key (k : string) : M bool := fun d => (Ok (bool_decide (is_Some (d !! k))), d).
(** [example.pop(k)] *)
Definition pop (k : string) : M val := fun d =>
  match d !! k with
  | Some v => (Ok v, delete k d)
  | None => (Err (KeyError k), d)
  end.
(** [example[k] = v] *)
Definition set_key (k : string) (v : val) : M unit := fun d => (Ok tt, <[k := v]> d).

(** ** Python string helpers *)

Definition sappend (a b : string) : string := String.append a b.

(** [s.split(sep)] for a non-empty separator, scanning left to right;
    [fuel] bounds the number of characters read ([String.length s] is enough). *)
Fixpoint split_fuel (fuel : nat) (sep s cur : string) : list string :=
  match fuel with
  | O => [sappend cur s]
  | S f =>
      match s with
      | EmptyString => [cur]
      | String c rest =>
          if String.prefix sep s
          then cur :: split_fuel f sep (String.substring (String.length sep)
                                          (String.length s) s) ""
          else split_fuel f sep rest (sappend cur (String c EmptyString))
      end
  end.

Definition py_split (sep s : string) : list string :=
  split_fuel (String.length s) sep s "".

(** [sep.join(l)] *)
Fixpoint py_join (sep : string) (l : list string) : string :=
  match l with
  | [] => ""
  | [x] => x
  | x :: xs => sappend x (sappend sep (py_join sep xs))
  end.

Definition is_space (c : ascii) : bool :=
  match c with
  | " "%char | "009"%char | "010"%char | "011"%char | "012"%char | "013"%char => true
  | _ => false
  end.

Fixpoint lstrip (s : string) : string :=
  match s with
  | EmptyString => EmptyString
  | String c rest => if is_space c then lstrip rest else s
  end.

Fixpoint rev_str (s : string) (acc : string) : string :=
  match s with
  | EmptyString => acc
  | String c rest => rev_str rest (String c acc)
  end.

(** [s.strip()] (ASCII whitespace). *)
Definition py_strip (s : string) : string :=
  rev_str (lstrip (rev_str (lstrip s) EmptyString)) EmptyString.

(** Number of positions at which [sep] occurs in [s]. *)
Fixpoint count_occ_str (sep s : string) : nat :=
  match s with
  | EmptyString => 0
  | String _ rest => (if String.prefix sep s then 1 else 0) + count_occ_str sep rest
  end.

(** ** Chat messages *)

Inductive part :=
| PText (t : string)     (* {"type": "text", "text": t} *)
| PImage.                (* {"type": "image"} *)

Inductive content :=
| CStr (s : string)
| CParts (ps : list part).

Record message := mk_message { role : string; msg_content : content }.

(** ** Configuration and external collaborators *)

(** Constructor arguments shared by [RLHFDataset] and [RLHFSelfDataset]. *)
Record config := mk_config {
  prompt_key : string;
  answer_key : string;
  image_key : string;
  max_prompt_length : Z;
  truncation : string;
  format_prompt : option string;      (* path of the template file *)
  max_pixels : option Z;
  min_pixels : option Z;
  filter_overlong_prompts : bool;
  image_root : option string          (* [RLHFSelfDataset] only *)
}.

(** The defaults of both constructors. *)
Definition default_config : config := {|
  prompt_key := "prompt";
  answer_key := "answer";
  image_key := "images";
  max_prompt_length := 1024;
  truncation := "error";
  format_prompt := None;
  max_pixels := None;
  min_pixels := None;
  filter_overlong_prompts := true;
  image_root := None
|}.

(** The text tokenizer ([PreTrainedTokenizer]). *)
Record Tokenizer := mk_tokenizer {
  (* apply_chat_template(messages, add_generation_prompt=True, tokenize=False) *)
  tok_chat_template : list message -> string;
  (* encode(text, add_special_tokens=False) *)
  tok_encode : string -> list Z;
  pad_token_id : Z
}.

(** The multimodal processor ([ProcessorMixin]). *)
Record Processor := mk_processor {
  (* apply_chat_template(messages, add_generation_prompt=True): the
     processor's [tokenize] defaults to False, so this is the rendered string *)
  proc_chat_template : list message -> string;
  (* processor(images, [prompt], add_special_tokens=False, return_tensors="pt"):
     input_ids[0], attention_mask[0] and image_grid_thw *)
  proc_call : list image -> string -> res (list Z * list Z * option val);
  (* processor.image_processor.__class__.__name__ *)
  image_processor_class : string
}.

Record Env := mk_env {
  tokenizer : Tokenizer;
  processor : option Processor;
  (* Image.open(path), Image.open(BytesIO(bytes)) *)
  open_path : string -> res image;
  open_bytes : string -> res image;
  (* Template(t).render(content=c) *)
  jinja_render : string -> string -> string;
  (* get_rope_index(processor, input_ids, image_grid_thw, attention_mask) *)
  rope_index : list Z -> option val -> list Z -> list (list Z);
  (* open(path).read(), json.load(open(path)) *)
  read_text : string -> res string;
  read_json : string -> res val;
  (* os.path.isdir, os.path.isfile *)
  isdir : string -> bool;
  isfile : string -> bool;
  (* load_dataset("parquet", data_dir=.., split="train"),
     load_dataset("parquet", data_files=.., split="train"),
     load_dataset(path, split=split) *)
  load_parquet_dir : string -> res (list dict);
  load_parquet_file : string -> res (list dict);
  load_remote : string -> string -> res (list dict)
}.

(** ** [_build_messages] *)

Definition str_eqb (a b : string) : bool := String.eqb a b.

(** Body of the loop [for i, content in enumerate(prompt_str.split("<image>"))]. *)
Fixpoint enum_parts (i : nat) (segs : list string) : list part :=
  match segs with
  | [] => []
  | c :: rest =>
      (if Nat.eqb i 0 then [] else [PImage])
        ++ (if str_eqb c "" then [] else [PText c])
        ++ enum_parts (S i) rest
  end.

(** [prompt_str] after the optional template ([self.format_prompt] holds the
    template text; an empty text is falsy). *)
Definition templated_prompt (env : Env) (fmt : option string) (p : string) : string :=
  match fmt with
  | Some f => if str_eqb f "" then p else jinja_render env (py_strip f) p
  | None => p
  end.

(** [_build_messages(example)].  Prompts are strings ([prompt_str: str]). *)
Definition build_messages (cfg : config) (env : Env) (fmt : option string)
    (example : dict) : res (list message) :=
  match example !! prompt_key cfg with
  | None => Err (KeyError (prompt_key cfg))
  | Some (VStr p) =>
      let prompt_str := templated_prompt env fmt p in
      if bool_decide (is_Some (example !! image_key cfg))
      then Ok [mk_message "user" (CParts (enum_parts 0 (py_split "<image>" prompt_str)))]
      else Ok [mk_message "user" (CStr prompt_str)]
  | Some _ => Err (TypeError "prompt_str is not a str")
  end.

(** ** [process_image] *)

Fixpoint assoc_lookup (k : string) (kvs : list (string * val)) : option val :=
  match kvs with
  | [] => None
  | (k', v) :: rest => if str_eqb k k' then Some v else assoc_lookup k rest
  end.

(** The [isinstance] dispatch: path, bytes-field dict, raw bytes, or an
    already decoded image. *)
Definition open_image (env : Env) (v : val) : res image :=
  match v with
  | VStr path => open_path env path
  | VDict kvs =>
      match assoc_lookup "bytes" kvs with
      | Some (VBytes b) => open_bytes env b
      | Some _ => Err (TypeError "a bytes-like object is required")
      | None => Err (KeyError "bytes")
      end
  | VBytes b => open_bytes env b
  | VImage i => Ok i
  | _ => Err (AttributeError "width")
  end.

Definition pixels (i : image) : Z := (Z.of_N (img_width i) * Z.of_N (img_height i))%Z.

(** Python's [int(x)] on a float: truncation toward zero. *)
Definition py_int (x : R) : Z :=
  if Rle_dec 0 x then Int_part x else (- Int_part (- x))%Z.

(** PIL's [image.resize((width, height))]: the size must be positive. *)
Definition pil_resize (i : image) (w h : Z) : res image :=
  if orb (w <? 1)%Z (h <? 1)%Z
  then Err (ValueError "height and width must be > 0")
  else Ok (mk_image (Z.to_N w) (Z.to_N h) (img_mode i)).

(** [resize_factor = math.sqrt(bound / (image.width * image.height))] and the
    resize to the truncated scaled dimensions. *)
Definition rescale (i : image) (bound : Z) : res image :=
  let wh := pixels i in
  if (wh =? 0)%Z then Err ZeroDivisionError
  else if (bound <? 0)%Z then Err (ValueError "math domain error")
  else
    let f := sqrt (IZR bound / IZR wh) in
    pil_resize i (py_int (IZR (Z.of_N (img_width i)) * f))
                 (py_int (IZR (Z.of_N (img_height i)) * f)).

Definition process_image (env : Env) (v : val) (min_px max_px : option Z) : res image :=
  i0 ← open_image env v;
  i1 ← match max_px with
       | None => Err (TypeError "'>' not supported between instances of 'int' and 'NoneType'")
       | Some mx => if (pixels i0 >? mx)%Z then rescale i0 mx else Ok i0
       end;
  i2 ← match min_px with
       | None => Err (TypeError "'<' not supported between instances of 'int' and 'NoneType'")
       | Some mn => if (pixels i1 <? mn)%Z then rescale i1 mn else Ok i1
       end;
  Ok (if str_eqb (img_mode i2) "RGB" then i2
      else mk_image (img_width i2) (img_height i2) "RGB").

(** ** Position ids, padding and truncation *)

Fixpoint cumsum_from (acc : Z) (l : list Z) : list Z :=
  match l with
  | [] => []
  | x :: xs => (acc + x)%Z :: cumsum_from (acc + x) xs
  end.

(** [attention_mask.cumsum(dim=0)] *)
Definition cumsum (l : list Z) : list Z := cumsum_from 0 l.

(** [position_ids]: one axis of shape (seq_length,) or three of shape (3, seq_length). *)
Inductive posids :=
| Pos1 (p : list Z)
| Pos3 (rows : list (list Z)).

Definition pos_val (p : posids) : val :=
  match p with Pos1 l => VTensor l | Pos3 rows => VTensor2 rows end.

Definition is_qwen2vl (env : Env) : bool :=
  match processor env with
  | Some p => str_eqb (image_processor_class p) "Qwen2VLImageProcessor"
  | None => false
  end.

(** Modelled from the spec: [get_rope_index] of [models/transformers/qwen2_vl.py]
    (not in this tree) is an opaque collaborator that consumes the token ids,
    the optional grid descriptor and the attention mask and produces the
    three rows of rotary indices. *)
Definition get_rope_index (env : Env) (input_ids : list Z) (grid : option val)
    (attention_mask : list Z) : list (list Z) :=
  rope_index env input_ids grid attention_mask.

(** Lines 194-204. *)
Definition position_stage (env : Env) (input_ids attention_mask : list Z)
    (grid : option val) : posids :=
  if is_qwen2vl env
  then Pos3 (get_rope_index env input_ids grid attention_mask)
  else Pos1 (map (fun x => Z.max (x - 1) 0) (cumsum attention_mask)).

(** Modelled from the spec: the per-sequence routine of [VF.postprocess_data]
    ([utils/torch_functional.py], not in this tree).  A sequence shorter than
    [max_length] is left-padded with [pad] up to [max_length]; a longer one is
    cut to [max_length] by the truncation policy: "left" drops from the front,
    "right" drops from the end, "error" is fatal (the spec knows no other
    policy; any other value is fatal as well). *)
Definition pad_or_truncate (max_length pad : Z) (trunc : string) (s : list Z)
    : res (list Z) :=
  let n := Z.of_nat (length s) in
  if (n <? max_length)%Z then Ok (repeat pad (Z.to_nat (max_length - n)) ++ s)%list
  else if (max_length <? n)%Z then
    if str_eqb trunc "left" then Ok (drop (Z.to_nat (n - max_length)) s)
    else if str_eqb trunc "right" then Ok (take (Z.to_nat max_length) s)
    else Err (RuntimeError "prompt is longer than max_length")
  else Ok s.

(** Modelled from the spec: [VF.postprocess_data(..., left_pad=True)], the
    routine above applied to [input_ids] (pad id), [attention_mask] (0) and
    [position_ids] (0, each row of a 3-axis tensor). *)
Definition postprocess_data (input_ids attention_mask : list Z) (position_ids : posids)
    (max_length pad_token_id : Z) (trunc : string) : res (list Z * list Z * posids) :=
  ids ← pad_or_truncate max_length pad_token_id trunc input_ids;
  mask ← pad_or_truncate max_length 0 trunc attention_mask;
  pos ← match position_ids with
        | Pos1 p => p' ← pad_or_truncate max_length 0 trunc p; Ok (Pos1 p')
        | Pos3 rows => rows' ← mapM (pad_or_truncate max_length 0 trunc) rows; Ok (Pos3 rows')
        end;
  Ok (ids, mask, pos).

(** Python slice bounds: a negative index counts from the end, then clamps. *)
Definition py_slice_index (i n : Z) : Z :=
  if (i <? 0)%Z then Z.max 0 (i + n) else Z.min i n.

(** [l[i:]] *)
Definition py_slice_from {A} (i : Z) (l : list A) : list A :=
  drop (Z.to_nat (py_slice_index i (Z.of_nat (length l)))) l.

(** [l[:j]] *)
Definition py_slice_to {A} (j : Z) (l : list A) : list A :=
  take (Z.to_nat (py_slice_index j (Z.of_nat (length l)))) l.

(** Lines 215-222: the second truncation, on [raw_prompt_ids]. *)
Definition truncate_raw (max_len : Z) (trunc : string) (raw : list Z) : res (list Z) :=
  if (Z.of_nat (length raw) >? max_len)%Z then
    if str_eqb trunc "left" then Ok (py_slice_from (- max_len) raw)
    else if str_eqb trunc "right" then Ok (py_slice_to max_len raw)
    else if str_eqb trunc "error" then Err (RuntimeError "Prompt length is longer than max_prompt_length")
    else Ok raw
  else Ok raw.

(** ** [__getitem__] *)

(** Python iteration over a value ([for image in raw_image_data]). *)
Definition py_iter (v : val) : res (list val) :=
  match v with
  | VList l => Ok l
  | VDict kvs => Ok (map (fun kv => VStr kv.1) kvs)
  | VStr s => Ok (map (fun c => VStr (String c EmptyString)) (list_ascii_of_string s))
  | VBytes s => Ok (map (fun c => VInt (Z.of_N (N_of_ascii c))) (list_ascii_of_string s))
  | VTensor t => Ok (map VInt t)
  | VTensor2 t => Ok (map VTensor t)
  | _ => Err (TypeError "object is not iterable")
  end.

(** Lines 170-191: the chat-template rendering and the encoding, with the
    image key popped and [multi_modal_data] added when images are present.
    Returns the prompt, [input_ids], [attention_mask] and [image_grid_thw]. *)
Definition encode_stage (cfg : config) (env : Env) (messages : list message)
    : M (string * list Z * list Z * option val) :=
  has_img ← has_key (image_key cfg);
  if (has_img : bool) then
    match processor env with
    | None => lift (Err (AttributeError "'NoneType' object has no attribute 'apply_chat_template'"))
    | Some p =>
        let prompt := proc_chat_template p messages in
        raw_image_data ← pop (image_key cfg);
        images ← lift (vs ← py_iter raw_image_data;
                       mapM (fun im => process_image env im (min_pixels cfg) (max_pixels cfg)) vs);
        '(ids, mask, grid) ← lift (proc_call p images prompt);
        set_key "multi_modal_data" (VDict [("image", raw_image_data)]);;
        mret (prompt, ids, mask, grid)
    end
  else
    let tok := tokenizer env in
    let prompt := tok_chat_template tok messages in
    (* tokenizer([prompt], add_special_tokens=False): one unpadded sequence,
       so its attention mask is all ones *)
    let ids := tok_encode tok prompt in
    mret (prompt, ids, repeat 1%Z (length ids), None).

(** The body of [__getitem__] on [example = self.dataset[index]], shared by
    both variants: it mutates [example] and returns it. *)
Definition getitem_body (cfg : config) (env : Env) (fmt : option string) : M dict :=
  example ← get_dict;
  messages ← lift (build_messages cfg env fmt example);
  '(prompt, input_ids, attention_mask, grid) ← encode_stage cfg env messages;
  let position_ids := position_stage env input_ids attention_mask grid in
  '(ids, mask, pos) ← lift (postprocess_data input_ids attention_mask position_ids
                              (max_prompt_length cfg) (pad_token_id (tokenizer env))
                              (truncation cfg));
  raw_prompt_ids ← lift (truncate_raw (max_prompt_length cfg) (truncation cfg)
                           (tok_encode (tokenizer env) prompt));
  set_key "input_ids" (VTensor ids);;
  set_key "attention_mask" (VTensor mask);;
  set_key "position_ids" (pos_val pos);;
  set_key "raw_prompt_ids" (VList (map VInt raw_prompt_ids));;
  gt ← pop (answer_key cfg);
  set_key "ground_truth" gt;;
  get_dict.

(** ** The dataset objects *)

(** The state of a constructed dataset: its arguments, [self.format_prompt]
    (the template text or None) and [self.dataset]. *)
Record dataset := mk_dataset {
  ds_config : config;
  ds_format_prompt : option string;
  ds_records : list dict
}.

(** Python indexing [l[i]] (negative indices count from the end). *)
Definition py_index (n : nat) (i : Z) : option nat :=
  let j := if (i <? 0)%Z then (i + Z.of_nat n)%Z else i in
  if andb (0 <=? j)%Z (j <? Z.of_nat n)%Z then Some (Z.to_nat j) else None.

(** [len(self.dataset)] *)
Definition ds_len (ds : dataset) : nat := length (ds_records ds).

(** [RLHFDataset.__getitem__]: [self.dataset[index]] of a [datasets.Dataset]
    builds a fresh dict per access, so the stored records are untouched. *)
Definition getitem_A (env : Env) (ds : dataset) (index : Z) : res dict * dataset :=
  match py_index (ds_len ds) index with
  | None => (Err IndexError, ds)
  | Some j =>
      match ds_records ds !! j with
      | None => (Err IndexError, ds)
      | Some example =>
          (fst (getitem_body (ds_config ds) env (ds_format_prompt ds) example), ds)
      end
  end.

(** [RLHFSelfDataset.__getitem__]: [self.dataset] is a Python list of dicts
    and [example] is the stored dict itself, so every mutation of the call
    (also those before an exception) is a mutation of the stored record. *)
Definition getitem_B (env : Env) (ds : dataset) (index : Z) : res dict * dataset :=
  match py_index (ds_len ds) index with
  | None => (Err IndexError, ds)
  | Some j =>
      match ds_records ds !! j with
      | None => (Err IndexError, ds)
      | Some example =>
          let '(r, example') := getitem_body (ds_config ds) env (ds_format_prompt ds) example in
          (r, mk_dataset (ds_config ds) (ds_format_prompt ds) (<[j := example']> (ds_records ds)))
      end
  end.

(** [data_path, data_split = data_path.split("@")] or the default split. *)
Definition split_locator (data_path : string) : res (string * string) :=
  match py_split "@" data_path with
  | [p] => Ok (p, "train")
  | [p; s] => Ok (p, s)
  | _ => Err (ValueError "too many values to unpack")
  end.

(** [self.format_prompt]: the template file's text when a path is given. *)
Definition read_format_prompt (env : Env) (cfg : config) : res (option string) :=
  match format_prompt cfg with
  | Some path => if str_eqb path "" then Ok None else (t ← read_text env path; Ok (Some t))
  | None => Ok None
  end.

(** [_filter_overlong_prompts]: [len] of [apply_chat_template(messages,
    add_generation_prompt=True)] of the processor if there is one (the
    rendered string: its characters), else of the tokenizer (tokenize
    defaults to True there: its token ids). *)
Definition filter_overlong_prompts_pred (cfg : config) (env : Env) (fmt : option string)
    (example : dict) : res bool :=
  messages ← build_messages cfg env fmt example;
  let n := match processor env with
           | Some p => String.length (proc_chat_template p messages)
           | None => length (tok_encode (tokenizer env) (tok_chat_template (tokenizer env) messages))
           end in
  Ok (Z.of_nat n <=? max_prompt_length cfg)%Z.

(** [RLHFDataset.__init__] *)
Definition construct_A (cfg : config) (env : Env) (data_path : string) : res dataset :=
  '(path, split) ← split_locator data_path;
  records ← (if isdir env path then load_parquet_dir env path
             else if isfile env path then load_parquet_file env path
             else load_remote env path split);
  fmt ← read_format_prompt env cfg;
  records' ← (if filter_overlong_prompts cfg
              then filterM (filter_overlong_prompts_pred cfg env fmt) records
              else Ok records);
  Ok (mk_dataset cfg fmt records').

(** ** The JSON annotation of [RLHFSelfDataset] *)

(** [ele[k]] *)
Definition py_getitem_str (v : val) (k : string) : res val :=
  match v with
  | VDict kvs => match assoc_lookup k kvs with Some x => Ok x | None => Err (KeyError k) end
  | _ => Err (TypeError "indices must be integers")
  end.

Definition as_str (v : val) : res string :=
  match v with
  | VStr s => Ok s
  | _ => Err (TypeError "can only concatenate str (not another type) to str")
  end.

Definition py_bool_str (b : bool) : string := if b then "True" else "False".

(** [repr] of the values a JSON document decodes to (escapes not modelled). *)
Fixpoint py_repr (v : val) : string :=
  match v with
  | VNone => "None"
  | VBool b => py_bool_str b
  | VInt z => pretty z
  | VStr s => sappend "'" (sappend s "'")
  | VBytes s => sappend "b'" (sappend s "'")
  | VList l =>
      sappend "[" (sappend (py_join ", " (map py_repr l)) "]")
  | VDict kvs =>
      sappend "{" (sappend (py_join ", "
        (map (fun kv => sappend "'" (sappend kv.1 (sappend "': " (py_repr kv.2)))) kvs)) "}")
  | VImage _ => "<PIL.Image.Image>"
  | VTensor _ | VTensor2 _ => "tensor(...)"
  end.

(** [str(v)] *)
Definition py_str (v : val) : string :=
  match v with
  | VStr s => s
  | _ => py_repr v
  end.

Definition ends_with_slash (s : string) : bool :=
  str_eqb (String.substring (String.length s - 1) 1 s) "/".

(** [os.path.join(a, b)] (posixpath) *)
Definition os_path_join (a b : string) : string :=
  if String.prefix "/" b then b
  else if orb (str_eqb a "") (ends_with_slash a) then sappend a b
  else sappend a (sappend "/" b).

(** Lines 311-316: one annotation entry to one record. *)
Definition entry_to_record (root : option string) (ele : val) : res dict :=
  img_id ← py_getitem_str ele "img_id";
  img_id_s ← as_str img_id;
  r ← match root with
      | Some r => Ok r
      | None => Err (TypeError "expected str, bytes or os.PathLike object, not NoneType")
      end;
  q ← py_getitem_str ele "question";
  qs ← as_str q;
  a ← py_getitem_str ele "answer";
  loc ← py_getitem_str ele "location";
  Ok (<["location" := loc]>
        (<["answer" := VStr (py_str a)]>
          (<["problem" := VStr (sappend "<image>" qs)]>
            (<["images" := VList [VStr (os_path_join r (sappend img_id_s "_origin.png"))]]>
              (∅ : dict))))).

(** [RLHFSelfDataset.__init__]: no filtering (it is commented out). *)
Definition construct_B (cfg : config) (env : Env) (data_path : string) : res dataset :=
  '(path, _) ← split_locator data_path;
  temp_annotations ← read_json env path;
  entries ← py_iter temp_annotations;
  records ← mapM (entry_to_record (image_root cfg)) entries;
  fmt ← read_format_prompt env cfg;
  Ok (mk_dataset cfg fmt records).

(** ** [collate_fn] *)

(** [isinstance(value, torch.Tensor)] *)
Definition is_tensor (v : val) : bool :=
  match v with VTensor _ | VTensor2 _ => true | _ => false end.

(** [tensor.shape] *)
Definition tensor_shape (v : val) : option (list nat) :=
  match v with
  | VTensor l => Some [length l]
  | VTensor2 rows => Some [length rows; match rows with r :: _ => length r | [] => 0 end]
  | _ => None
  end.

(** A value of the collated batch: [torch.stack(...)] (its shape and the
    stacked tensors) or [np.array(value, dtype=object)] (built from the
    collected values). *)
Inductive batched :=
| BStacked (shape : list nat) (items : list val)
| BObjects (items : list val).

(** [torch.stack(value, dim=0)]: all tensors must have the same shape. *)
Definition torch_stack (vs : list val) : res batched :=
  match vs with
  | [] => Err (RuntimeError "stack expects a non-empty TensorList")
  | v :: rest =>
      match tensor_shape v with
      | None => Err (TypeError "expected Tensor as element 0 in argument 0")
      | Some s =>
          if forallb (fun w => bool_decide (tensor_shape w = Some s)) rest
          then Ok (BStacked (length vs :: s) vs)
          else Err (RuntimeError "stack expects each tensor to be equal size")
      end
  end.

(** A [defaultdict(list)]. *)
Abbreviation columns := (gmap string (list val)).

(** [d[key].append(value)] *)
Definition append_value (k : string) (v : val) (d : columns) : columns :=
  <[k := (default [] (d !! k) ++ [v])%list]> d.

(** One step of [for key, value in feature.items()]. *)
Definition collect_item (acc : columns * columns) (kv : string * val) : columns * columns :=
  let '(tensors, non_tensors) := acc in
  let '(key, value) := kv in
  if is_tensor value then (append_value key value tensors, non_tensors)
  else (tensors, append_value key value non_tensors).

(** The loop body for one [feature]. *)
Definition collect_feature (acc : columns * columns) (feature : dict) : columns * columns :=
  fold_left collect_item (map_to_list feature) acc.

(** One step of [for key, value in tensors.items(): tensors[key] = torch.stack(value, dim=0)]. *)
Definition stack_item (kvs : string * list val) : res (string * batched) :=
  b ← torch_stack kvs.2; Ok (kvs.1, b).

(** [collate_fn(features)]: [{**tensors, **non_tensors}], so a key found in
    both keeps its [non_tensors] value.  [np.array(value, dtype=object)] is
    taken to succeed; numpy can also raise there (non-tensor values holding
    array-likes whose leading dimensions agree and later ones differ), so a
    success of this model is necessary, not sufficient, for a success of
    the code, and a successful result is the code's. *)
Definition collate_fn (features : list dict) : res (gmap string batched) :=
  let '(tensors, non_tensors) := fold_left collect_feature features (∅, ∅) in
  stacked ← mapM stack_item (map_to_list tensors);
  Ok ((BObjects <$> non_tensors) ∪ list_to_map stacked).

(** ** Views of the built content *)

Fixpoint count_image_parts (ps : list part) : nat :=
  match ps with
  | [] => 0
  | PImage :: r => S (count_image_parts r)
  | PText _ :: r => count_image_parts r
  end.

(** The content parts read back as a prompt, each image part as the marker. *)
Fixpoint render_parts (ps : list part) : string :=
  match ps with
  | [] => ""
  | PImage :: r => sappend "<image>" (render_parts r)
  | PText t :: r => sappend t (render_parts r)
  end.

Definition render_content (c : content) : string :=
  match c with
  | CStr s => s
  | CParts ps => render_parts ps
  end.

(** The values of [key] in the features that have it, in order. *)
Definition column (k : string) (features : list dict) : list val :=
  omap (fun f : dict => f !! k) features.

Definition tensor_column (k : string) (features : list dict) : list val :=
  List.filter is_tensor (column k features).

Definition object_column (k : string) (features : list dict) : list val :=
  List.filter (fun v => negb (is_tensor v)) (column k features).

(** The column of a [defaultdict(list)] after appending the values [l]. *)
Definition extend_col (o : option (list val)) (l : list val) : option (list val) :=
  match l with [] => o | _ => Some (default [] o ++ l)%list end.

(** ** Sample collaborators for concrete runs *)

(** A character-level tokenizer whose chat template is the user content. *)
Definition sample_tokenizer : Tokenizer := {|
  tok_chat_template := fun ms => fold_right (fun m acc => sappend (render_content (msg_content m)) acc) "" ms;
  tok_encode := fun s => map (fun c => Z.of_N (N_of_ascii c)) (list_ascii_of_string s);
  pad_token_id := 0%Z
|}.

(** A processor that renders like the tokenizer, with a longer chat template. *)
Definition sample_processor : Processor := {|
  proc_chat_template := fun ms =>
    sappend "<|im_start|>user " (sappend (tok_chat_template sample_tokenizer ms) "<|im_end|>");
  proc_call := fun _ prompt =>
    let ids := tok_encode sample_tokenizer prompt in Ok (ids, repeat 1%Z (length ids), None);
  image_processor_class := "Qwen2VLImageProcessorFast"
|}.

Definition sample_env (proc : option Processor) : Env := {|
  tokenizer := sample_tokenizer;
  processor := proc;
  open_path := fun _ => Ok (mk_image 10 10 "RGBA");
  open_bytes := fun _ => Err (OSError "cannot identify image file");
  jinja_render := fun _ c => c;
  rope_index := fun ids _ _ => [ids; ids; ids];
  read_text := fun _ => Ok "";
  read_json := fun _ => Ok (VList []);
  isdir := fun _ => false;
  isfile := fun _ => true;
  load_parquet_dir := fun _ => Ok [];
  load_parquet_file := fun _ => Ok [];
  load_remote := fun _ _ => Ok []
|}.

Definition sample_config (L : Z) (trunc : string) : config := {|
  prompt_key := "prompt";
  answer_key := "answer";
  image_key := "images";
  max_prompt_length := L;
  truncation := trunc;
  format_prompt := None;
  max_pixels := Some 200%Z;
  min_pixels := Some 50%Z;
  filter_overlong_prompts := true;
  image_root := Some "/data/images"
|}.

Definition text_record (prompt answer : string) : dict :=
  <["prompt" := VStr prompt]> (<["answer" := VStr answer]> ∅).

Definition image_record (prompt answer : string) (imgs : list val) : dict :=
  <["images" := VList imgs]> (text_record prompt answer).

(** One annotation entry of an [RLHFSelfDataset] JSON file. *)
Definition sample_entry : val :=
  VDict [("img_id", VStr "0001"); ("question", VStr "Where is the cat?");
         ("answer", VInt 3); ("location", VList [VInt 4; VInt 7])].

(** The sample collaborators with a processor and a one-entry annotation file. *)
Definition sample_env_B : Env := {|
  tokenizer := sample_tokenizer;
  processor := Some sample_processor;
  open_path := fun _ => Ok (mk_image 10 10 "RGBA");
  open_bytes := fun _ => Err (OSError "cannot identify image file");
  jinja_render := fun _ c => c;
  rope_index := fun ids _ _ => [ids; ids; ids];
  read_text := fun _ => Ok "";
  read_json := fun _ => Ok (VList [sample_entry]);
  isdir := fun _ => false;
  isfile := fun _ => true;
  load_parquet_dir := fun _ => Ok [];
  load_parquet_file := fun _ => Ok [];
  load_remote := fun _ _ => Ok []
|}.

(** The arguments [RLHFSelfDataset] is used with: prompt key "problem". *)
Definition sample_config_B : config := {|
  prompt_key := "problem";
  answer_key := "answer";
  image_key := "images";
  max_prompt_length := 128;
  truncation := "error";
  format_prompt := None;
  max_pixels := Some 200%Z;
  min_pixels := Some 50%Z;
  filter_overlong_prompts := true;
  image_root := Some "/data/images"
|}.

(** A tokenizer that encodes two characters per token id. *)
Fixpoint pair_encode (l : list ascii) : list Z :=
  match l with
  | c1 :: c2 :: r => (256 * Z.of_N (N_of_ascii c1) + Z.of_N (N_of_ascii c2))%Z :: pair_encode r
  | [c] => [Z.of_N (N_of_ascii c)]
  | [] => []
  end.

Definition pair_tokenizer : Tokenizer := {|
  tok_chat_template := tok_chat_template sample_tokenizer;
  tok_encode := fun s => pair_encode (list_ascii_of_string s);
  pad_token_id := 0%Z
|}.

(** A parquet file with one text record, read with the pair tokenizer and
    the sample processor. *)
Definition sample_env_pairs : Env := {|
  tokenizer := pair_tokenizer;
  processor := Some sample_processor;
  open_path := fun _ => Ok (mk_image 10 10 "RGBA");
  open_bytes := fun _ => Err (OSError "cannot identify image file");
  jinja_render := fun _ c => c;
  rope_index := fun ids _ _ => [ids; ids; ids];
  read_text := fun _ => Ok "";
  read_json := fun _ => Ok (VList []);
  isdir := fun _ => false;
  isfile := fun _ => true;
  load_parquet_dir := fun _ => Ok [];
  load_parquet_file := fun _ => Ok [text_record "What is 2+2?" "4"];
  load_remote := fun _ _ => Ok []
|}.

(** The record [RLHFSelfDataset] builds from [sample_entry]. *)
Definition sample_record_B : dict :=
  <["location" := VList [VInt 4; VInt 7]]>
    (<["answer" := VStr "3"]>
    (<["problem" := VStr "<image>Where is the cat?"]>
    (<["images" := VList [VStr "/data/images/0001_origin.png"]]> ∅))).

Definition sample_ds_B : dataset := mk_dataset sample_config_B None [sample_record_B].

(** ** Shapes of the padded outputs *)



(** The fields [__getitem__] writes into the example. *)
Definition output_names : list string :=
  ["input_ids"; "attention_mask"; "position_ids"; "raw_prompt_ids"; "ground_truth"; "multi_modal_data"].


(** A step of the body never adds a field outside the output names: such a
    field of the final dict is one the example had. *)
Definition keeps_outside {A} (m : M A) : Prop :=
  forall d k v, k ∉ output_names -> (m d).2 !! k = Some v -> d !! k = Some v.

(** ** Helper lemmas: strings *)

Lemma sappend_nil_l s : sappend "" s = s.
Proof. reflexivity. Qed.

Lemma sappend_cons c a b : sappend (String c a) b = String c (sappend a b).
Proof. reflexivity. Qed.

Lemma sappend_nil_r s : sappend s "" = s.
Proof. induction s as [|c s IH]; [done|]. by rewrite sappend_cons, IH. Qed.

Lemma sappend_assoc a b c : sappend a (sappend b c) = sappend (sappend a b) c.
Proof. induction a as [|x a IH]; [done|]. by rewrite !sappend_cons, IH. Qed.

Lemma length_sappend a b : String.length (sappend a b) = String.length a + String.length b.
Proof. induction a as [|x a IH]; [done|]. rewrite sappend_cons. simpl. by rewrite IH. Qed.

Lemma substring_0_all t m : String.length t <= m -> String.substring 0 m t = t.
Proof.
  revert m; induction t as [|c t IH]; intros m Hm; destruct m as [|m]; simpl in *;
    try done; try lia.
  rewrite IH; [done | lia].
Qed.

(** A matched prefix splits the string; the remainder is what [split_fuel] reads next. *)
Lemma prefix_sappend sep s :
  String.prefix sep s = true ->
  exists t, s = sappend sep t /\
    forall m, String.length t <= m -> String.substring (String.length sep) m s = t.
Proof.
  revert s; induction sep as [|a sep IH]; intros s Hp.
  - exists s; split; [done | intros m Hm; by apply substring_0_all].
  - destruct s as [|b s]; simpl in Hp; [discriminate|].
    destruct (ascii_dec a b) as [<-|]; [|discriminate].
    destruct (IH s Hp) as (t & -> & Ht).
    exists t; split; [done|]. intros m Hm. simpl. by apply Ht.
Qed.

Lemma split_fuel_nonempty f sep s cur : split_fuel f sep s cur <> [].
Proof.
  revert s cur; induction f as [|f IH]; intros s cur; simpl; [done|].
  destruct s as [|c rest]; [done|]. destruct (String.prefix sep _); [done | apply IH].
Qed.

Lemma py_join_cons sep x l : l <> [] -> py_join sep (x :: l) = sappend x (sappend sep (py_join sep l)).
Proof. destruct l; [done | reflexivity]. Qed.

(** [sep.join(s.split(sep)) == s] *)
Lemma split_fuel_join f sep s cur :
  py_join sep (split_fuel f sep s cur) = sappend cur s.
Proof.
  revert s cur; induction f as [|f IH]; intros s cur; simpl; [done|].
  destruct s as [|c rest]; [by rewrite sappend_nil_r|].
  destruct (String.prefix sep (String c rest)) eqn:Hp.
  - rewrite py_join_cons by apply split_fuel_nonempty. rewrite IH, sappend_nil_l.
    destruct (prefix_sappend _ _ Hp) as (t & Heq & Ht).
    rewrite (Ht (String.length (String c rest))).
    + by rewrite <- Heq.
    + rewrite Heq, length_sappend. lia.
  - rewrite IH, <- sappend_assoc. reflexivity.
Qed.

Lemma py_split_join sep s : py_join sep (py_split sep s) = s.
Proof. unfold py_split. by rewrite split_fuel_join. Qed.

(** The marker "<image>" cannot start inside "image>": the occurrences after a
    matched marker are those of the remainder. *)
Lemma prefix_nil t : String.prefix "" t = true.
Proof. by destruct t. Qed.

Lemma count_occ_image_after t :
  count_occ_str "<image>" (sappend "<image>" t) = S (count_occ_str "<image>" t).
Proof.
  rewrite !sappend_cons, sappend_nil_l. cbn [count_occ_str].
  cbn. rewrite prefix_nil. reflexivity.
Qed.

Lemma split_fuel_count f s cur :
  String.length s <= f ->
  length (split_fuel f "<image>" s cur) = S (count_occ_str "<image>" s).
Proof.
  revert s cur; induction f as [|f IH]; intros s cur Hf.
  - destruct s; simpl in Hf; [done | lia].
  - destruct s as [|c rest]; [done|].
    cbn [split_fuel].
    destruct (String.prefix "<image>" (String c rest)) eqn:Hp.
    + destruct (prefix_sappend _ _ Hp) as (t & Heq & Ht).
      rewrite (Ht (String.length (String c rest))).
      2:{ rewrite Heq, length_sappend. lia. }
      rewrite Heq, count_occ_image_after. cbn [length]. f_equal.
      apply IH. rewrite Heq, length_sappend in Hf. simpl in Hf. lia.
    + cbn [count_occ_str]. rewrite Hp. simpl. apply IH. simpl in Hf. lia.
Qed.

(** ** Helper lemmas: message content *)

Lemma count_image_parts_app a b :
  count_image_parts (a ++ b) = count_image_parts a + count_image_parts b.
Proof. induction a as [|[t|] a IH]; simpl; lia. Qed.

Lemma render_parts_app a b : render_parts (a ++ b) = sappend (render_parts a) (render_parts b).
Proof.
  induction a as [|[t|] a IH]; simpl; [done | |]; by rewrite IH, sappend_assoc.
Qed.

Lemma text_part_render x r :
  render_parts ((if str_eqb x "" then [] else [PText x]) ++ r) = sappend x (render_parts r).
Proof.
  destruct (str_eqb x "") eqn:E; simpl.
  - apply String.eqb_eq in E. by subst.
  - done.
Qed.

Lemma text_part_count x :
  count_image_parts (if str_eqb x "" then [] else [PText x]) = 0.
Proof. by destruct (str_eqb x ""). Qed.

Lemma enum_parts_S_count i segs : count_image_parts (enum_parts (S i) segs) = length segs.
Proof.
  revert i; induction segs as [|x segs IH]; intros i; [done|].
  cbn [enum_parts Nat.eqb]. rewrite !count_image_parts_app, text_part_count, IH. simpl. lia.
Qed.

Lemma enum_parts_S_render i x segs :
  render_parts (enum_parts (S i) (x :: segs)) = sappend "<image>" (py_join "<image>" (x :: segs)).
Proof.
  revert i x; induction segs as [|y segs IH]; intros i x.
  - cbn [enum_parts Nat.eqb]. rewrite render_parts_app, text_part_render. simpl.
    by rewrite !sappend_nil_r.
  - cbn [enum_parts Nat.eqb]. rewrite render_parts_app, text_part_render.
    cbn [enum_parts Nat.eqb] in IH. rewrite IH. simpl. by rewrite sappend_nil_r.
Qed.

Lemma enum_parts_0_render x segs :
  render_parts (enum_parts 0 (x :: segs)) = py_join "<image>" (x :: segs).
Proof.
  cbn [enum_parts Nat.eqb]. rewrite app_nil_l, text_part_render.
  destruct segs as [|y segs]; [simpl; by rewrite sappend_nil_r|].
  rewrite enum_parts_S_render. rewrite (py_join_cons _ x) by done. reflexivity.
Qed.

Lemma enum_parts_no_empty_text i segs : Forall (fun q => q <> PText "") (enum_parts i segs).
Proof.
  revert i; induction segs as [|x segs IH]; intros i; simpl; [constructor|].
  apply Forall_app; split; [destruct (Nat.eqb i 0); repeat constructor; discriminate|].
  apply Forall_app; split; [|apply IH].
  destruct (str_eqb x "") eqn:E; constructor; [|constructor].
  intros [= ->]. discriminate.
Qed.

(** ** C4: [_build_messages] *)

(** C4: every record with a string prompt gets exactly one user message.
    Without an image field its content is the (templated) prompt verbatim.
    With an image field the content is the part list built from the split on
    "<image>": it has as many image parts as the prompt has markers, it reads
    back as the prompt with each image part in place of a marker, and it has
    no empty text part. *)
Theorem build_messages_user_parts (cfg : config) (env : Env) (fmt : option string)
    (example : dict) (p : string) :
  example !! prompt_key cfg = Some (VStr p) ->
  (example !! image_key cfg = None ->
     build_messages cfg env fmt example
       = Ok [mk_message "user" (CStr (templated_prompt env fmt p))]) /\
  (is_Some (example !! image_key cfg) ->
     exists ps,
       build_messages cfg env fmt example = Ok [mk_message "user" (CParts ps)] /\
       ps = enum_parts 0 (py_split "<image>" (templated_prompt env fmt p)) /\
       count_image_parts ps = count_occ_str "<image>" (templated_prompt env fmt p) /\
       render_parts ps = templated_prompt env fmt p /\
       Forall (fun q => q <> PText "") ps).
Proof.
  intros Hp. unfold build_messages. rewrite Hp. split.
  - intros Hi. rewrite Hi. reflexivity.
  - intros Hi. rewrite bool_decide_eq_true_2 by done.
    set (s := templated_prompt env fmt p).
    exists (enum_parts 0 (py_split "<image>" s)). split; [done|]. split; [done|].
    assert (Hlen : length (py_split "<image>" s) = S (count_occ_str "<image>" s))
      by (apply split_fuel_count; lia).
    assert (Hjoin := py_split_join "<image>" s).
    destruct (py_split "<image>" s) as [|x segs] eqn:Hs; [done|].
    split; [|split].
    + cbn [enum_parts Nat.eqb]. rewrite app_nil_l, count_image_parts_app, text_part_count.
      rewrite enum_parts_S_count. simpl in Hlen. lia.
    + by rewrite enum_parts_0_render.
    + apply enum_parts_no_empty_text.
Qed.

Lemma build_messages_user_parts_witness :
  image_record "<image>describe" "4" [VStr "a.png"] !! "prompt" = Some (VStr "<image>describe") /\
  exists ps,
    build_messages (sample_config 8 "error") (sample_env None) None
      (image_record "<image>describe" "4" [VStr "a.png"]) = Ok [mk_message "user" (CParts ps)] /\
    ps = enum_parts 0 (py_split "<image>" "<image>describe") /\
    count_image_parts ps = count_occ_str "<image>" "<image>describe" /\
    render_parts ps = "<image>describe" /\
    Forall (fun q => q <> PText "") ps.
Proof.
  split; [reflexivity|].
  apply (build_messages_user_parts (sample_config 8 "error") (sample_env None) None
           (image_record "<image>describe" "4" [VStr "a.png"]) "<image>describe");
    [reflexivity | eexists; reflexivity].
Defined.

(** ** Helper lemmas: image resizing *)

Lemma py_int_spec (x : R) :
  (0 <= x)%R ->
  (0 <= IZR (py_int x))%R /\ (IZR (py_int x) <= x)%R /\ (x < IZR (py_int x) + 1)%R.
Proof.
  intros Hx. unfold py_int. destruct (Rle_dec 0 x) as [_|]; [|lra].
  destruct (base_Int_part x) as [H1 H2].
  assert (Hz : (-1 < Int_part x)%Z) by (apply lt_IZR; lra).
  assert (H0 : (0 <= IZR (Int_part x))%R) by (apply IZR_le; lia).
  lra.
Qed.

(** One [resize] by [sqrt(bound / pixel_count)]: the pixel count is at most
    [bound], and adding one to each truncated side exceeds it. *)
Lemma rescale_bounds (i : image) (b : Z) (i' : image) :
  rescale i b = Ok i' ->
  (pixels i' <= b)%Z /\
  (b < (Z.of_N (img_width i') + 1) * (Z.of_N (img_height i') + 1))%Z /\
  img_mode i' = img_mode i.
Proof.
  unfold rescale, pil_resize.
  destruct (pixels i =? 0)%Z eqn:E0; [discriminate|].
  destruct (b <? 0)%Z eqn:Eb; [discriminate|].
  apply Z.eqb_neq in E0. apply Z.ltb_ge in Eb.
  set (f := sqrt (IZR b / IZR (pixels i))).
  set (a := (IZR (Z.of_N (img_width i)) * f)%R).
  set (c := (IZR (Z.of_N (img_height i)) * f)%R).
  destruct (orb (py_int a <? 1)%Z (py_int c <? 1)%Z) eqn:Er; [discriminate|].
  apply orb_false_iff in Er as [Ea Ec]. apply Z.ltb_ge in Ea, Ec.
  intros [= <-]. unfold pixels. cbn [img_width img_height img_mode].
  rewrite !Z2N.id by lia. split; [|split; [|done]].
  all: assert (Hw : (0 <= IZR (Z.of_N (img_width i)))%R) by (apply IZR_le; lia).
  all: assert (Hh : (0 <= IZR (Z.of_N (img_height i)))%R) by (apply IZR_le; lia).
  all: assert (Hpos : (0 < IZR (pixels i))%R)
         by (apply IZR_lt; unfold pixels in *; lia).
  all: assert (Hf : (0 <= f)%R) by apply sqrt_pos.
  all: assert (Hac : (a * c = IZR b)%R).
  all: try (unfold a, c;
            replace (IZR (Z.of_N (img_width i)) * f * (IZR (Z.of_N (img_height i)) * f))%R
              with (IZR (pixels i) * (f * f))%R
              by (unfold pixels; rewrite mult_IZR; ring);
            unfold f; rewrite sqrt_sqrt;
            [field; lra | apply Rmult_le_pos; [apply IZR_le; lia | left; by apply Rinv_0_lt_compat]]).
  all: assert (Ha : (0 <= a)%R) by (apply Rmult_le_pos; lra).
  all: assert (Hc : (0 <= c)%R) by (apply Rmult_le_pos; lra).
  all: destruct (py_int_spec a Ha) as (Ha0 & Ha1 & Ha2).
  all: destruct (py_int_spec c Hc) as (Hc0 & Hc1 & Hc2).
  - apply le_IZR. rewrite mult_IZR, <- Hac.
    apply Rmult_le_compat; lra.
  - apply lt_IZR. rewrite mult_IZR, !plus_IZR, <- Hac.
    apply Rmult_le_0_lt_compat; lra.
Qed.

(** ** C7: [process_image] *)

(** C7: with integer bounds [min_pixels <= max_pixels], every image that
    [process_image] accepts (path, bytes, bytes-field dict or decoded image)
    has at most [max_pixels] pixels, reaches [min_pixels] up to the
    truncation of each side (one more pixel per side exceeds it), and is in
    RGB mode.  The downscale check comes first; an image already within the
    bounds keeps its size. *)
Theorem process_image_bounds (env : Env) (v : val) (mn mx : Z) (img : image) :
  (mn <= mx)%Z ->
  process_image env v (Some mn) (Some mx) = Ok img ->
  (pixels img <= mx)%Z /\
  (mn < (Z.of_N (img_width img) + 1) * (Z.of_N (img_height img) + 1))%Z /\
  img_mode img = "RGB" /\
  (forall i0, open_image env v = Ok i0 -> (mn <= pixels i0 <= mx)%Z ->
     img_width img = img_width i0 /\ img_height img = img_height i0).
Proof.
  intros Hle. unfold process_image.
  destruct (open_image env v) as [i0|e] eqn:Ho; [|discriminate]. cbn [mbind res_bind].
  (* the downscale step *)
  assert (Step1 : forall i1,
            (if (pixels i0 >? mx)%Z then rescale i0 mx else Ok i0) = Ok i1 ->
            (pixels i1 <= mx)%Z /\ ((mn <= pixels i0 <= mx)%Z -> i1 = i0)).
  { intros i1 H1. destruct (pixels i0 >? mx)%Z eqn:Eg.
    - destruct (rescale_bounds _ _ _ H1) as (Hb & _). split; [done|]. lia.
    - injection H1 as <-. split; [lia | done]. }
  destruct (if (pixels i0 >? mx)%Z then rescale i0 mx else Ok i0) as [i1|e] eqn:E1;
    [|discriminate]. cbn [mbind res_bind].
  destruct (Step1 i1 eq_refl) as (H1 & H1eq).
  destruct (if (pixels i1 <? mn)%Z then rescale i1 mn else Ok i1) as [i2|e] eqn:E2;
    [|discriminate]. cbn [mbind res_bind].
  assert (Hnn : forall i, (0 <= Z.of_N (img_width i))%Z /\ (0 <= Z.of_N (img_height i))%Z)
    by (intros; lia).
  assert (Step2 : (pixels i2 <= mx)%Z /\
                  (mn < (Z.of_N (img_width i2) + 1) * (Z.of_N (img_height i2) + 1))%Z /\
                  ((mn <= pixels i1)%Z -> i2 = i1)).
  { destruct (pixels i1 <? mn)%Z eqn:El.
    - destruct (rescale_bounds _ _ _ E2) as (Hb & Hl & _). apply Z.ltb_lt in El.
      split; [lia | split; [done | lia]].
    - injection E2 as <-. apply Z.ltb_ge in El.
      destruct (Hnn i1) as [Hw Hh]. unfold pixels in *.
      split; [done | split; [nia | done]]. }
  destruct Step2 as (H2 & H2l & H2eq).
  intros [= <-].
  destruct (str_eqb (img_mode i2) "RGB") eqn:Em.
  - apply String.eqb_eq in Em. split; [done | split; [done | split; [done|]]].
    intros j0 Hj Hr. injection Hj as <-.
    assert (E10 : i1 = i0) by (apply H1eq; lia). subst i1.
    rewrite H2eq by lia. done.
  - split; [done | split; [done | split; [done|]]].
    intros j0 Hj Hr. injection Hj as <-.
    assert (E10 : i1 = i0) by (apply H1eq; lia). subst i1.
    simpl. rewrite H2eq by lia. done.
Qed.

Lemma process_image_bounds_witness :
  (50 <= 200)%Z /\
  process_image (sample_env None) (VStr "a.png") (Some 50%Z) (Some 200%Z)
    = Ok (mk_image 10 10 "RGB") /\
  ((pixels (mk_image 10 10 "RGB") <= 200)%Z /\
   (50 < (Z.of_N 10 + 1) * (Z.of_N 10 + 1))%Z /\
   img_mode (mk_image 10 10 "RGB") = "RGB" /\
   (forall i0, open_image (sample_env None) (VStr "a.png") = Ok i0 ->
      (50 <= pixels i0 <= 200)%Z ->
      img_width (mk_image 10 10 "RGB") = img_width i0 /\
      img_height (mk_image 10 10 "RGB") = img_height i0)).
Proof.
  split; [lia|]. split; [reflexivity|].
  apply (process_image_bounds (sample_env None) (VStr "a.png") 50 200 (mk_image 10 10 "RGB"));
    [lia | reflexivity].
Defined.

(** ** Helper lemmas: the [__getitem__] pipeline *)

Lemma getitem_body_inv (cfg : config) (env : Env) (fmt : option string) (example out final : dict) :
  getitem_body cfg env fmt example = (Ok out, final) ->
  exists messages ex1 prompt ids0 mask0 grid ids mask pos raw gt,
    build_messages cfg env fmt example = Ok messages /\
    encode_stage cfg env messages example = (Ok (prompt, ids0, mask0, grid), ex1) /\
    postprocess_data ids0 mask0 (position_stage env ids0 mask0 grid)
      (max_prompt_length cfg) (pad_token_id (tokenizer env)) (truncation cfg) = Ok (ids, mask, pos) /\
    truncate_raw (max_prompt_length cfg) (truncation cfg) (tok_encode (tokenizer env) prompt) = Ok raw /\
    let ex2 := <["raw_prompt_ids" := VList (map VInt raw)]> (<["position_ids" := pos_val pos]>
                 (<["attention_mask" := VTensor mask]> (<["input_ids" := VTensor ids]> ex1))) in
    ex2 !! answer_key cfg = Some gt /\
    out = <["ground_truth" := gt]> (delete (answer_key cfg) ex2) /\ final = out.
Proof.
  unfold getitem_body, mbind, M_bind, get_dict, lift, set_key, pop.
  destruct (build_messages cfg env fmt example) as [messages|e] eqn:Hm; [|discriminate].
  destruct (encode_stage cfg env messages example) as [[[[[prompt ids0] mask0] grid]|e] ex1] eqn:He;
    [|discriminate].
  destruct (postprocess_data _ _ _ _ _ _) as [[[ids mask] pos]|e] eqn:Hp; [|discriminate].
  destruct (truncate_raw _ _ _) as [raw|e] eqn:Ht; [|discriminate].
  match goal with |- context [match ?x !! answer_key cfg with _ => _ end] =>
    destruct (x !! answer_key cfg) as [gt|] eqn:Hg end; [|discriminate].
  intros [= <- <-].
  exists messages, ex1, prompt, ids0, mask0, grid, ids, mask, pos, raw, gt. eauto 10.
Qed.

Lemma encode_stage_inv (cfg : config) (env : Env) (messages : list message) (ex ex1 : dict)
    prompt ids mask grid :
  encode_stage cfg env messages ex = (Ok (prompt, ids, mask, grid), ex1) ->
  (ex !! image_key cfg = None /\ ex1 = ex /\
   prompt = tok_chat_template (tokenizer env) messages /\
   ids = tok_encode (tokenizer env) prompt /\ mask = repeat 1%Z (length ids) /\ grid = None) \/
  (exists p raw images,
     processor env = Some p /\ ex !! image_key cfg = Some raw /\
     prompt = proc_chat_template p messages /\
     (vs ← py_iter raw; mapM (fun im => process_image env im (min_pixels cfg) (max_pixels cfg)) vs)
       = Ok images /\
     proc_call p images prompt = Ok (ids, mask, grid) /\
     ex1 = <["multi_modal_data" := VDict [("image", raw)]]> (delete (image_key cfg) ex)).
Proof.
  intros H. unfold encode_stage, mbind, M_bind, has_key, lift, set_key, pop, mret, M_ret in H.
  destruct (ex !! image_key cfg) as [raw|] eqn:Hi.
  - rewrite bool_decide_eq_true_2 in H by done. right.
    destruct (processor env) as [p|]; [|discriminate].
    rewrite Hi in H.
    destruct (res_bind _ _ _ (py_iter raw)) as [images|e] eqn:Him; [|discriminate].
    destruct (proc_call p images _) as [[[ids' mask'] grid']|e] eqn:Hc; [|discriminate].
    injection H as <- <- <- <- <-. exists p, raw, images. eauto 10.
  - rewrite bool_decide_eq_false_2 in H by (intros [? ?]; discriminate). left.
    injection H as <- <- <- <- <-. eauto 10.
Qed.


Lemma mapM_Forall2 {A B} (f : A -> res B) (l : list A) (l' : list B) :
  mapM f l = Ok l' -> Forall2 (fun x y => f x = Ok y) l l'.
Proof.
  revert l'; induction l as [|x l IH]; intros l'; simpl; [intros [= <-]; constructor|].
  destruct (f x) as [y|e] eqn:Hf; [|discriminate].
  destruct (mapM f l) as [ys|e] eqn:Hm; [|discriminate].
  intros [= <-]. constructor; [done | by apply IH].
Qed.




(** ** C1: padded lengths *)



(** ** Helper lemmas: the text-only path *)




(** ** C2: text-only records *)



(** ** C3: the second truncation, of [raw_prompt_ids] *)

(** With a positive [max_prompt_length] the second truncation bounds
    [raw_prompt_ids] by it under the three policies. *)
Lemma truncate_raw_bound (L : Z) (trunc : string) (raw r : list Z) :
  (1 <= L)%Z ->
  trunc = "left" \/ trunc = "right" \/ trunc = "error" ->
  truncate_raw L trunc raw = Ok r ->
  (Z.of_nat (length r) <= L)%Z /\
  (trunc = "left" -> r = drop (length raw - Z.to_nat L) raw) /\
  (trunc = "right" -> r = take (Z.to_nat L) raw).
Proof.
  intros HL Ht. unfold truncate_raw, py_slice_from, py_slice_to, py_slice_index.
  destruct (Z.of_nat (length raw) >? L)%Z eqn:E.
  - apply Z.gtb_lt in E.
    destruct Ht as [ -> | [ -> | -> ] ]; simpl.
    + rewrite (proj2 (Z.ltb_lt (- L) 0)) by lia. intros [= <-].
      rewrite length_drop.
      replace (Z.to_nat (Z.max 0 (- L + Z.of_nat (length raw)))) with (length raw - Z.to_nat L) by lia.
      split; [lia|]. split; [done | discriminate].
    + rewrite (proj2 (Z.ltb_ge L 0)) by lia. intros [= <-].
      rewrite length_take.
      replace (Z.to_nat (Z.min L (Z.of_nat (length raw)))) with (Z.to_nat L) by lia.
      split; [lia|]. split; [discriminate | done].
    + discriminate.
  - rewrite Z.gtb_ltb, Z.ltb_ge in E. intros [= <-].
    split; [done|].
    split; intros _; [rewrite (proj2 (Nat.sub_0_le _ _)) by lia; done
                     | rewrite take_ge by lia; done].
Qed.

(** C3 (code bug): with [max_prompt_length = 0] and [truncation = "left"]
    the slice [raw_prompt_ids[-0:]] is the whole list, so a record whose
    prompt encodes to four ids is returned with all four [raw_prompt_ids]
    although the bound is 0 (while the padded [input_ids] are cut to length
    0); in general [truncate_raw 0 "left"] returns every list unchanged. *)
Theorem raw_prompt_ids_zero_left :
  (forall raw, truncate_raw 0 "left" raw = Ok raw) /\
  fst (getitem_A (sample_env None)
         (mk_dataset (sample_config 0 "left") None [text_record "2+2=" "4"]) 0)
    = Ok (<["ground_truth" := VStr "4"]>
           (<["raw_prompt_ids" := VList [VInt 50; VInt 43; VInt 50; VInt 61]]>
           (<["position_ids" := VTensor []]>
           (<["attention_mask" := VTensor []]>
           (<["input_ids" := VTensor []]>
           (<["prompt" := VStr "2+2="]> ∅)))))).
Proof.
  split; [|reflexivity].
  intros raw. unfold truncate_raw, py_slice_from, py_slice_index.
  destruct (Z.of_nat (length raw) >? 0)%Z; [|done].
  simpl. rewrite Z.min_l by lia. simpl. done.
Qed.

(** ** C5: repeated access *)

(** C5 (code bug): [RLHFSelfDataset.__getitem__] transforms the stored dict
    itself.  On the dataset built from a one-entry annotation file, the first
    access succeeds and leaves the stored record without its "answer" (and
    "images") field, so the second access at the same index raises
    [KeyError('answer')].  [RLHFDataset.__getitem__] on the same records
    returns the same example and leaves them unchanged. *)
Theorem getitem_B_mutates_record :
  exists ds out1 ds1,
    construct_B sample_config_B sample_env_B "annotations.json" = Ok ds /\
    getitem_B sample_env_B ds 0 = (Ok out1, ds1) /\
    fst (getitem_B sample_env_B ds1 0) = Err (KeyError "answer") /\
    (ds_records ds !! 0%nat ≫= lookup "answer") = Some (VStr "3") /\
    (ds_records ds1 !! 0%nat ≫= lookup "answer") = None /\
    getitem_A sample_env_B ds 0 = (Ok out1, ds).
Proof.
  eexists _, _, _. split; [reflexivity|]. split; [reflexivity|].
  repeat split; reflexivity.
Qed.

(** ** C6: the overlong-prompt filter *)

(** C6 (code bug): with a processor, [_filter_overlong_prompts] measures
    [len] of [processor.apply_chat_template(...)], which renders a string
    ([tokenize] defaults to False there), so it compares the number of
    characters, not of tokens, with [max_prompt_length].  A record whose
    rendered prompt (39 characters) tokenizes to 20 ids, within the bound 32,
    is dropped at construction. *)
Theorem filter_overlong_counts_characters :
  let cfg := sample_config 32 "error" in
  let env := sample_env_pairs in
  exists messages,
    build_messages cfg env None (text_record "What is 2+2?" "4") = Ok messages /\
    length (tok_encode (tokenizer env) (proc_chat_template sample_processor messages)) = 20 /\
    String.length (proc_chat_template sample_processor messages) = 39 /\
    filter_overlong_prompts cfg = true /\
    construct_A cfg env "data.parquet" = Ok (mk_dataset cfg None []).
Proof.
  eexists. split; [reflexivity|]. repeat split; reflexivity.
Qed.

(** ** C8: the records of [RLHFSelfDataset] *)

(** C8: a successful construction of [RLHFSelfDataset] reads the annotation
    array and keeps one record per entry, in order (nothing is filtered, so
    [len] is the number of entries); each record has exactly the four fields
    "images" (the one path [os.path.join(image_root, img_id + "_origin.png")]),
    "problem" ("<image>" followed by the question), "answer" ([str] of the
    entry's answer) and "location" (the entry's value unchanged). *)
Theorem construct_B_records (cfg : config) (env : Env) (data_path : string) (ds : dataset) :
  construct_B cfg env data_path = Ok ds ->
  exists path split annotations entries,
    split_locator data_path = Ok (path, split) /\
    read_json env path = Ok annotations /\
    py_iter annotations = Ok entries /\
    ds_len ds = length entries /\
    Forall2 (fun ele record =>
      exists root img_id q a loc,
        image_root cfg = Some root /\
        py_getitem_str ele "img_id" = Ok (VStr img_id) /\
        py_getitem_str ele "question" = Ok (VStr q) /\
        py_getitem_str ele "answer" = Ok a /\
        py_getitem_str ele "location" = Ok loc /\
        record = <["location" := loc]>
                   (<["answer" := VStr (py_str a)]>
                   (<["problem" := VStr (sappend "<image>" q)]>
                   (<["images" := VList [VStr (os_path_join root (sappend img_id "_origin.png"))]]>
                   ∅))))
      entries (ds_records ds).
Proof.
  unfold construct_B, mbind, res_bind.
  destruct (split_locator data_path) as [[path split]|e] eqn:Hs; [|discriminate].
  destruct (read_json env path) as [annotations|e] eqn:Hj; [|discriminate].
  destruct (py_iter annotations) as [entries|e] eqn:Hi; [|discriminate].
  destruct (mapM (entry_to_record (image_root cfg)) entries) as [records|e] eqn:Hm;
    [|discriminate].
  destruct (read_format_prompt env cfg) as [fmt|e]; [|discriminate].
  intros [= <-].
  exists path, split, annotations, entries.
  apply mapM_Forall2 in Hm.
  split; [done|]. split; [done|]. split; [done|].
  split; [unfold ds_len; simpl; symmetry; by eapply Forall2_length|].
  simpl. eapply Forall2_impl; [exact Hm|]. intros ele record.
  unfold entry_to_record, mbind, res_bind.
  destruct (py_getitem_str ele "img_id") as [iv|e]; [|discriminate].
  destruct iv; try discriminate. simpl.
  destruct (image_root cfg) as [root|]; [|discriminate].
  destruct (py_getitem_str ele "question") as [qv|e]; [|discriminate].
  destruct qv; try discriminate. simpl.
  destruct (py_getitem_str ele "answer") as [a|e]; [|discriminate].
  destruct (py_getitem_str ele "location") as [loc|e]; [|discriminate].
  intros [= <-]. eauto 12.
Qed.

Lemma construct_B_records_witness :
  construct_B sample_config_B sample_env_B "annotations.json"
    = Ok (mk_dataset sample_config_B None
            [<["location" := VList [VInt 4; VInt 7]]>
               (<["answer" := VStr "3"]>
               (<["problem" := VStr "<image>Where is the cat?"]>
               (<["images" := VList [VStr "/data/images/0001_origin.png"]]> ∅)))]) /\
  ds_len (mk_dataset sample_config_B None
            [<["location" := VList [VInt 4; VInt 7]]>
               (<["answer" := VStr "3"]>
               (<["problem" := VStr "<image>Where is the cat?"]>
               (<["images" := VList [VStr "/data/images/0001_origin.png"]]> ∅)))]) = 1%nat.
Proof.
  assert (H : construct_B sample_config_B sample_env_B "annotations.json"
    = Ok (mk_dataset sample_config_B None
            [<["location" := VList [VInt 4; VInt 7]]>
               (<["answer" := VStr "3"]>
               (<["problem" := VStr "<image>Where is the cat?"]>
               (<["images" := VList [VStr "/data/images/0001_origin.png"]]> ∅)))])) by reflexivity.
  split; [exact H|].
  destruct (construct_B_records _ _ _ _ H) as (path & split & annotations & entries & _ & Hr & Hi & Hl & _).
  rewrite Hl. simpl in Hr. injection Hr as <-. simpl in Hi. injection Hi as <-. reflexivity.
Defined.

(** ** C9: the fields kept, renamed and added *)

Ltac split_not_out H :=
  unfold output_names in H;
  repeat (rewrite not_elem_of_cons in H; let H' := fresh "Hne" in destruct H as [H' H]).




(** ** C10: the pixel bounds are required *)


Lemma process_image_type_error (env : Env) (v : val) (mn mx : option Z) (i0 : image) :
  open_image env v = Ok i0 ->
  (mx = None \/ (mn = None /\ exists b, mx = Some b /\ (pixels i0 <= b)%Z)) ->
  exists msg, process_image env v mn mx = Err (TypeError msg).
Proof.
  intros Ho Hb. unfold process_image, mbind, res_bind. rewrite Ho.
  destruct Hb as [-> | (-> & b & -> & Hle)]; [eauto|].
  rewrite Z.gtb_ltb, (proj2 (Z.ltb_ge _ _)) by lia. eauto.
Qed.



(** ** Helper lemmas: [collate_fn] *)


Lemma extend_col_app o l1 l2 : extend_col (extend_col o l1) l2 = extend_col o (l1 ++ l2).
Proof.
  destruct l1 as [|x l1]; [done|]. destruct l2 as [|y l2]; simpl; [by rewrite app_nil_r|].
  by rewrite <- app_assoc.
Qed.

Lemma extend_col_one d v l :
  extend_col (Some (d ++ [v])%list) l = Some (d ++ v :: l)%list.
Proof. destruct l as [|x l]; simpl; [done|]. by rewrite <- app_assoc. Qed.

Lemma lookup_append_value k' v d k :
  append_value k' v d !! k = if str_eqb k' k then extend_col (d !! k) [v] else d !! k.
Proof.
  unfold append_value, str_eqb. destruct (String.eqb_spec k' k) as [<-|Hne].
  - by rewrite lookup_insert_eq.
  - by rewrite lookup_insert_ne.
Qed.

Lemma fold_collect_item (l : list (string * val)) t nt k :
  let acc := fold_left collect_item l (t, nt) in
  acc.1 !! k = extend_col (t !! k)
      (List.filter is_tensor (map snd (List.filter (fun kv => str_eqb kv.1 k) l))) /\
  acc.2 !! k = extend_col (nt !! k)
      (List.filter (fun v => negb (is_tensor v)) (map snd (List.filter (fun kv => str_eqb kv.1 k) l))).
Proof.
  revert t nt; induction l as [|[k' v] l IH]; intros t nt; simpl; [done|].
  destruct (is_tensor v) eqn:Hv; destruct (IH (if is_tensor v then append_value k' v t else t)
    (if is_tensor v then nt else append_value k' v nt)) as [H1 H2]; rewrite Hv in H1, H2;
    rewrite H1, H2, !lookup_append_value;
    destruct (str_eqb k' k) eqn:Ek; cbn [List.filter map snd fst]; rewrite ?Ek, ?Hv;
    cbn [List.filter negb]; rewrite ?extend_col_app; done.
Qed.

Lemma Permutation_list_filter {A} (f : A -> bool) (l l' : list A) :
  Permutation l l' -> Permutation (List.filter f l) (List.filter f l').
Proof.
  induction 1 as [|x l l' _ IH|x y l|l l' l'' _ IH1 _ IH2]; simpl.
  - constructor.
  - destruct (f x); [by constructor | done].
  - destruct (f x), (f y); try constructor; reflexivity.
  - by etrans.
Qed.

(** The items of [feature] with key [k]: at most the one [feature !! k]. *)
Lemma filter_key_map_to_list (m : dict) k :
  List.filter (fun kv => str_eqb kv.1 k) (map_to_list m)
  = match m !! k with Some v => [(k, v)] | None => [] end.
Proof.
  induction m as [|i x m Hi IH] using map_ind.
  - by rewrite map_to_list_empty, lookup_empty.
  - assert (Hp : Permutation (List.filter (fun kv => str_eqb kv.1 k) (map_to_list (<[i:=x]> m)))
                   (List.filter (fun kv => str_eqb kv.1 k) ((i, x) :: map_to_list m))).
    { apply Permutation_list_filter. by apply map_to_list_insert. }
    simpl in Hp. rewrite IH in Hp. unfold str_eqb in Hp.
    destruct (String.eqb_spec i k) as [<-|Hne].
    + rewrite Hi in Hp. rewrite lookup_insert_eq. symmetry in Hp. by apply Permutation_length_1_inv in Hp.
    + rewrite lookup_insert_ne by done.
      symmetry in Hp.
      destruct (m !! k); [by apply Permutation_length_1_inv in Hp | by apply Permutation_nil in Hp].
Qed.

Lemma fold_collect_feature (fs : list dict) t nt k :
  let acc := fold_left collect_feature fs (t, nt) in
  acc.1 !! k = extend_col (t !! k) (tensor_column k fs) /\
  acc.2 !! k = extend_col (nt !! k) (object_column k fs).
Proof.
  unfold tensor_column, object_column.
  revert t nt; induction fs as [|f fs IH]; intros t nt; simpl; [done|].
  unfold collect_feature at 2.
  destruct (fold_left collect_item (map_to_list f) (t, nt)) as [t1 nt1] eqn:E.
  destruct (fold_collect_item (map_to_list f) t nt k) as [H1 H2].
  rewrite E in H1, H2. simpl in H1, H2.
  rewrite filter_key_map_to_list in H1, H2.
  destruct (IH t1 nt1) as [H3 H4]. unfold collect_feature in H3, H4 |- *.
  rewrite E. split; [rewrite H3, H1 | rewrite H4, H2];
    destruct (f !! k) as [v|]; simpl; try done; destruct (is_tensor v); simpl;
    rewrite ?extend_col_one; done.
Qed.

Lemma collect_columns (fs : list dict) k :
  let acc := fold_left collect_feature fs (∅, ∅) in
  acc.1 !! k = extend_col None (tensor_column k fs) /\
  acc.2 !! k = extend_col None (object_column k fs).
Proof. pose proof (fold_collect_feature fs ∅ ∅ k) as H. by rewrite lookup_empty in H. Qed.

Lemma Forall2_in_l {A B} (R : A -> B -> Prop) l1 l2 x :
  Forall2 R l1 l2 -> In x l1 -> exists y, In y l2 /\ R x y.
Proof.
  induction 1 as [|a b l1 l2 Hab _ IH]; [done|]. intros [<-|Hx].
  - exists b. split; [left|]; done.
  - destruct (IH Hx) as (y & Hy & Hr). exists y. split; [right|]; done.
Qed.

Lemma mapM_ok_iff {A B} (f : A -> res B) (l : list A) :
  (exists l', mapM f l = Ok l') <-> (forall x, In x l -> exists y, f x = Ok y).
Proof.
  induction l as [|x l IH]; simpl.
  - split; [done|]. intros _. by exists [].
  - split.
    + intros [l' Hl']. destruct (f x) as [y|e] eqn:Hf; [|discriminate].
      destruct (mapM f l) as [ys|e] eqn:Hm; [|discriminate].
      intros z [<-|Hz]; [by exists y|]. apply IH; [by exists ys | done].
    + intros H. destruct (H x (or_introl eq_refl)) as [y ->].
      destruct (proj2 IH (fun z Hz => H z (or_intror Hz))) as [ys ->]. by exists (y :: ys).
Qed.

Lemma stacked_lookup (t : columns) (st : list (string * batched)) :
  mapM stack_item (map_to_list t) = Ok st ->
  (forall k vs, t !! k = Some vs ->
     exists b, torch_stack vs = Ok b /\ (list_to_map st : gmap string batched) !! k = Some b) /\
  (forall k, t !! k = None -> (list_to_map st : gmap string batched) !! k = None).
Proof.
  intros Hm. apply mapM_Forall2 in Hm.
  assert (Hfst : st.*1 = (map_to_list t).*1).
  { clear -Hm. induction Hm as [|[k vs] y l1 l2 Hy _ IH]; [done|].
    unfold stack_item in Hy. simpl in Hy.
    destruct (torch_stack vs); [|discriminate]. injection Hy as <-. simpl. by f_equal. }
  assert (Hnd : NoDup st.*1) by (rewrite Hfst; apply NoDup_fst_map_to_list).
  split.
  - intros k vs Hk. apply elem_of_map_to_list in Hk. apply list_elem_of_In in Hk.
    destruct (Forall2_in_l _ _ _ _ Hm Hk) as (y & Hy & Hg).
    unfold stack_item in Hg. simpl in Hg.
    destruct (torch_stack vs) as [b|e]; [|discriminate]. injection Hg as <-.
    exists b. split; [done|]. apply elem_of_list_to_map_1; [done|]. by apply list_elem_of_In.
  - intros k Hk. apply not_elem_of_list_to_map_1. rewrite Hfst.
    intros Hin. apply list_elem_of_fmap in Hin as ([k' vs] & -> & Hin).
    apply elem_of_map_to_list in Hin. simpl in Hk. congruence.
Qed.

Lemma collate_fn_unfold (fs : list dict) :
  collate_fn fs =
  let acc := fold_left collect_feature fs (∅, ∅) in
  stacked ← mapM stack_item (map_to_list acc.1);
  Ok ((BObjects <$> acc.2) ∪ list_to_map stacked).
Proof. unfold collate_fn. by destruct (fold_left collect_feature fs (∅, ∅)). Qed.

Lemma tensor_column_tensors k fs : Forall (fun v => is_tensor v = true) (tensor_column k fs).
Proof. unfold tensor_column. apply Forall_forall. intros v Hv. apply list_elem_of_In, filter_In in Hv. by destruct Hv. Qed.

Lemma torch_stack_ok (vs : list val) :
  vs <> [] -> Forall (fun v => is_tensor v = true) vs ->
  (exists b, torch_stack vs = Ok b) <->
  (forall v w, In v vs -> In w vs -> tensor_shape v = tensor_shape w).
Proof.
  intros Hne Ht. destruct vs as [|v0 rest]; [done|].
  inversion Ht as [|? ? Hv0 Hrest]; subst.
  simpl. destruct (tensor_shape v0) as [s|] eqn:Hs;
    [|destruct v0; discriminate].
  assert (Hall : forallb (fun w => bool_decide (tensor_shape w = Some s)) rest = true <->
                 forall w, In w rest -> tensor_shape w = Some s).
  { rewrite forallb_forall. split; intros H w Hw; specialize (H w Hw);
      [by apply bool_decide_eq_true in H | by apply bool_decide_eq_true]. }
  destruct (forallb _ rest) eqn:Hf.
  - split; [|eauto]. intros _ v w Hv Hw.
    assert (Hsh : forall u, v0 = u \/ In u rest -> tensor_shape u = Some s).
    { intros u [<-|Hu]; [done|]. by apply Hall. }
    by rewrite (Hsh v Hv), (Hsh w Hw).
  - split; [intros [b Hb]; discriminate|]. intros H.
    assert (Hc : forall w, In w rest -> tensor_shape w = Some s).
    { intros w Hw. rewrite <- Hs. apply H; [right | left]; done. }
    apply Hall in Hc. congruence.
Qed.

Lemma extend_col_None l : extend_col None l = match l with [] => None | _ => Some l end.
Proof. by destruct l. Qed.

(** [collate_fn], per key [k] of the batch: when some feature holds a
    non-tensor under [k], the batch value is the object array of the
    non-tensor values only (the tensors of that key are dropped by
    [{**tensors, **non_tensors}]); when all values under [k] are tensors
    they are stacked in feature order, the shape being their number followed
    by the common shape; a key no feature has is absent. *)
Theorem collate_fn_columns (fs : list dict) (out : gmap string batched) (k : string) :
  collate_fn fs = Ok out ->
  (object_column k fs <> [] -> out !! k = Some (BObjects (object_column k fs))) /\
  (object_column k fs = [] -> forall v vs, tensor_column k fs = v :: vs ->
     exists s, tensor_shape v = Some s /\
       out !! k = Some (BStacked (S (length vs) :: s) (v :: vs))) /\
  (column k fs = [] -> out !! k = None).
Proof.
  rewrite collate_fn_unfold. cbv zeta.
  destruct (collect_columns fs k) as [Ht Hn].
  destruct (mapM stack_item _) as [st|e] eqn:Hm; [|discriminate].
  intros [= <-]. destruct (stacked_lookup _ _ Hm) as [Hs1 Hs2].
  rewrite extend_col_None in Ht, Hn.
  split; [|split].
  - intros Hne. apply lookup_union_Some_l. rewrite lookup_fmap, Hn.
    destruct (object_column k fs); [done|]. reflexivity.
  - intros He v vs Hv. rewrite lookup_union_r by (rewrite lookup_fmap, Hn, He; reflexivity).
    rewrite Hv in Ht.
    destruct (Hs1 _ _ Ht) as (b & Hb & Hl). rewrite Hl.
    pose proof (tensor_column_tensors k fs) as Hts. rewrite Hv in Hts.
    inversion Hts as [|? ? Hv0 _]; subst.
    simpl in Hb. destruct (tensor_shape v) as [s|] eqn:Hs; [|destruct v; discriminate].
    destruct (forallb _ vs); [|discriminate]. injection Hb as <-.
    exists s. split; reflexivity.
  - intros Hc. unfold tensor_column, object_column in Ht, Hn. rewrite Hc in Ht, Hn. simpl in Ht, Hn.
    apply lookup_union_None. rewrite lookup_fmap, Hn, (Hs2 _ Ht). done.
Qed.

(** In the model, where [np.array(value, dtype=object)] is total, the
    stacking succeeds exactly when the tensors of each key share one shape. *)
Lemma collate_fn_stack_ok (fs : list dict) :
  (exists out, collate_fn fs = Ok out) <->
  (forall k v w, In v (tensor_column k fs) -> In w (tensor_column k fs) ->
     tensor_shape v = tensor_shape w).
Proof.
  rewrite collate_fn_unfold. cbv zeta.
  set (acc := fold_left collect_feature fs (∅, ∅)).
  transitivity (exists st, mapM stack_item (map_to_list acc.1) = Ok st).
  { split.
    - intros [out Hout]. revert Hout. destruct (mapM stack_item _) as [st|e]; [intros _; by exists st | discriminate].
    - intros [st Hst]. rewrite Hst. by eexists. }
  rewrite mapM_ok_iff. split.
  - intros H k v w Hv Hw.
    destruct (collect_columns fs k) as [Ht _]. fold acc in Ht. rewrite extend_col_None in Ht.
    destruct (tensor_column k fs) as [|c cs] eqn:Hc; [done|].
    assert (Hin : In (k, c :: cs) (map_to_list acc.1))
      by (apply list_elem_of_In, elem_of_map_to_list; done).
    destruct (H _ Hin) as [y Hy].
    assert (Hb : exists b, torch_stack (c :: cs) = Ok b).
    { revert Hy. unfold stack_item. cbn [snd fst].
      destruct (torch_stack (c :: cs)); [eauto | discriminate]. }
    apply (torch_stack_ok (c :: cs)); [done | rewrite <- Hc; apply tensor_column_tensors | done | done | done].
  - intros H [k vs] Hin. apply list_elem_of_In, elem_of_map_to_list in Hin.
    destruct (collect_columns fs k) as [Ht _]. fold acc in Ht. rewrite extend_col_None in Ht.
    rewrite Hin in Ht.
    destruct (tensor_column k fs) as [|c cs] eqn:Hc; [discriminate|]. injection Ht as ->.
    assert (Hts : Forall (fun v => is_tensor v = true) (c :: cs))
      by (rewrite <- Hc; apply tensor_column_tensors).
    destruct (proj2 (torch_stack_ok (c :: cs) ltac:(done) Hts)) as [b Hb].
    { intros v w Hv Hw. apply (H k); by rewrite Hc. }
    unfold stack_item. cbn [fst snd]. rewrite Hb. by eexists.
Qed.

Lemma mapM_err_in {A B} (f : A -> res B) (l : list A) (e : exn) :
  mapM f l = Err e -> exists x, In x l /\ f x = Err e.
Proof.
  induction l as [|x l IH]; simpl; [discriminate|].
  destruct (f x) as [y|e'] eqn:Hf.
  - destruct (mapM f l) as [ys|e'] eqn:Hm; [discriminate|].
    intros [= ->]. destruct (IH eq_refl) as (z & Hz & Hfz). eauto.
  - intros [= ->]. eauto.
Qed.

(** [collate_fn] raises a [RuntimeError] (at [torch.stack], before any
    [np.array] is built) whenever two tensors collected under one key differ
    in shape. *)
Theorem collate_fn_unequal_shapes_raise (fs : list dict) (k : string) (v w : val) :
  In v (tensor_column k fs) -> In w (tensor_column k fs) ->
  tensor_shape v <> tensor_shape w ->
  exists msg, collate_fn fs = Err (RuntimeError msg).
Proof.
  intros Hv Hw Hne.
  destruct (collate_fn fs) as [out|e] eqn:Hc.
  { exfalso. apply Hne. apply (proj1 (collate_fn_stack_ok fs) (ex_intro _ out Hc) k); done. }
  revert Hc. rewrite collate_fn_unfold. cbv zeta.
  destruct (mapM stack_item _) as [st|e'] eqn:Hm; [discriminate|]. intros [= ->].
  destruct (mapM_err_in _ _ _ Hm) as ([k' vs] & Hin & Hs).
  apply list_elem_of_In, elem_of_map_to_list in Hin.
  destruct (collect_columns fs k') as [Ht _]. rewrite extend_col_None, Hin in Ht.
  destruct (tensor_column k' fs) as [|c cs] eqn:Htc; [discriminate|]. injection Ht as ->.
  pose proof (tensor_column_tensors k' fs) as Hts. rewrite Htc in Hts.
  inversion Hts as [|? ? Hc0 _]; subst.
  revert Hs. unfold stack_item. cbn [fst snd torch_stack].
  destruct (tensor_shape c) as [sh|] eqn:Hsh; [|destruct c; discriminate].
  destruct (forallb _ cs); [discriminate|]. intros [= <-]. eauto.
Qed.

Lemma collate_fn_columns_witness :
  let f1 : dict := <["input_ids" := VTensor [1; 2]%Z]> (<["ground_truth" := VStr "a"]> ∅) in
  let f2 : dict := <["input_ids" := VTensor [3; 4]%Z]> (<["ground_truth" := VNone]> ∅) in
  exists out, collate_fn [f1; f2] = Ok out /\
    out !! "input_ids" = Some (BStacked [2; 2]%nat [VTensor [1; 2]%Z; VTensor [3; 4]%Z]) /\
    out !! "ground_truth" = Some (BObjects [VStr "a"; VNone]).
Proof.
  intros f1 f2.
  pose (r := collate_fn [f1; f2]).
  assert (H : r = Ok (match r with Ok o => o | Err _ => ∅ end)) by reflexivity.
  exists (match r with Ok o => o | Err _ => ∅ end). split; [exact H|].
  destruct (collate_fn_columns _ _ "input_ids" H) as (_ & Hi & _).
  destruct (collate_fn_columns _ _ "ground_truth" H) as (Hg & _ & _).
  split.
  - destruct (Hi eq_refl (VTensor [1; 2]%Z) [VTensor [3; 4]%Z] eq_refl) as (s & Hs & Hout).
    injection Hs as <-. exact Hout.
  - exact (Hg ltac:(discriminate)).
Defined.

Lemma collate_fn_unequal_shapes_raise_witness :
  let f1 : dict := <["input_ids" := VTensor [1; 2]%Z]> ∅ in
  let f2 : dict := <["input_ids" := VTensor [3]%Z]> ∅ in
  exists msg, collate_fn [f1; f2] = Err (RuntimeError msg).
Proof.
  intros f1 f2.
  assert (Hc : tensor_column "input_ids" [f1; f2] = [VTensor [1; 2]%Z; VTensor [3]%Z])
    by reflexivity.
  apply (collate_fn_unequal_shapes_raise [f1; f2] "input_ids" (VTensor [1; 2]%Z) (VTensor [3]%Z));
    [rewrite Hc; left; reflexivity | rewrite Hc; right; left; reflexivity | discriminate].
Defined.

(** ** [__getitem__]: indexing and the stored records *)

(** A successful [RLHFSelfDataset.__getitem__] returns what
    [RLHFDataset.__getitem__] returns on the same records, and the record
    stored at the accessed position is replaced by the returned dict. *)
Theorem getitem_B_stores_output (env : Env) (ds : dataset) (i : Z) (out : dict) (ds' : dataset) :
  getitem_B env ds i = (Ok out, ds') ->
  getitem_A env ds i = (Ok out, ds) /\
  exists j, py_index (ds_len ds) i = Some j /\
    ds' = mk_dataset (ds_config ds) (ds_format_prompt ds) (<[j := out]> (ds_records ds)).
Proof.
  unfold getitem_A, getitem_B.
  destruct (py_index (ds_len ds) i) as [j|]; [|discriminate].
  destruct (ds_records ds !! j) as [example|] eqn:Hj; [|discriminate].
  destruct (getitem_body _ _ _ example) as [r ex'] eqn:Hb.
  intros [= -> <-].
  destruct (getitem_body_inv _ _ _ _ _ _ Hb)
    as (messages & ex1 & prompt & ids0 & mask0 & grid & ids & mask & pos & raw & gt
        & Hm & He & Hp & Ht & Hg & Hout & ->).
  split; [done|]. eauto.
Qed.

Lemma getitem_body_no_answer (cfg : config) (env : Env) (fmt : option string) (example : dict) :
  answer_key cfg ∉ output_names -> example !! answer_key cfg = None ->
  exists e, fst (getitem_body cfg env fmt example) = Err e.
Proof.
  intros Hk Ha.
  destruct (getitem_body cfg env fmt example) as [[out|e] final] eqn:Hb; [|eauto].
  exfalso.
  destruct (getitem_body_inv _ _ _ _ _ _ Hb)
    as (messages & ex1 & prompt & ids0 & mask0 & grid & ids & mask & pos & raw & gt
        & Hm & He & Hp & Ht & Hg & _).
  split_not_out Hk.
  destruct (encode_stage_inv _ _ _ _ _ _ _ _ _ He)
    as [(Hi & -> & _) | (p & rawi & images & _ & Hi & _ & _ & _ & ->)].
  - simplify_map_eq; congruence.
  - simplify_map_eq. destruct (decide (answer_key cfg = image_key cfg)) as [E|E].
    + rewrite E in Hg. by simplify_map_eq.
    + rewrite lookup_delete_ne in Hg by done. congruence.
Qed.

Lemma keeps_outside_bind {A B} (m : M A) (f : A -> M B) :
  keeps_outside m -> (forall a, keeps_outside (f a)) -> keeps_outside (m ≫= f).
Proof.
  intros Hm Hf d k v Hk. unfold mbind, M_bind.
  destruct (m d) as [[a|e] d'] eqn:E; intros H.
  - apply (Hm d k v Hk). rewrite E. simpl. by apply (Hf a d' k v Hk).
  - apply (Hm d k v Hk). by rewrite E.
Qed.

Lemma keeps_outside_lift {A} (r : res A) : keeps_outside (lift r).
Proof. by intros d k v _ H. Qed.

Lemma keeps_outside_ret {A} (a : A) : keeps_outside (mret a : M A).
Proof. by intros d k v _ H. Qed.

Lemma keeps_outside_get : keeps_outside get_dict.
Proof. by intros d k v _ H. Qed.

Lemma keeps_outside_has_key k' : keeps_outside (has_key k').
Proof. by intros d k v _ H. Qed.

Lemma keeps_outside_pop k' : keeps_outside (pop k').
Proof.
  intros d k v _. unfold pop. destruct (d !! k') eqn:E; simpl; [|done].
  destruct (decide (k = k')) as [->|Hne]; [by rewrite lookup_delete_eq|].
  by rewrite lookup_delete_ne.
Qed.

Lemma keeps_outside_set k' v' : k' ∈ output_names -> keeps_outside (set_key k' v').
Proof.
  intros Hk' d k v Hk. unfold set_key. simpl.
  destruct (decide (k = k')) as [->|Hne]; [done|]. by rewrite lookup_insert_ne.
Qed.

Lemma keeps_outside_encode cfg env messages : keeps_outside (encode_stage cfg env messages).
Proof.
  unfold encode_stage. apply keeps_outside_bind; [apply keeps_outside_has_key|].
  intros [|].
  - destruct (processor env) as [p|]; [|apply keeps_outside_lift].
    apply keeps_outside_bind; [apply keeps_outside_pop|]. intros raw.
    apply keeps_outside_bind; [apply keeps_outside_lift|]. intros images.
    apply keeps_outside_bind; [apply keeps_outside_lift|]. intros [[ids mask] grid].
    apply keeps_outside_bind; [apply keeps_outside_set; compute_done|]. intros _.
    apply keeps_outside_ret.
  - apply keeps_outside_ret.
Qed.

Lemma keeps_outside_body cfg env fmt : keeps_outside (getitem_body cfg env fmt).
Proof.
  unfold getitem_body.
  apply keeps_outside_bind; [apply keeps_outside_get|]. intros ex.
  apply keeps_outside_bind; [apply keeps_outside_lift|]. intros messages.
  apply keeps_outside_bind; [apply keeps_outside_encode|]. intros [[[prompt ids0] mask0] grid].
  apply keeps_outside_bind; [apply keeps_outside_lift|]. intros [[ids mask] pos].
  apply keeps_outside_bind; [apply keeps_outside_lift|]. intros raw.
  apply keeps_outside_bind; [apply keeps_outside_set; compute_done|]. intros _.
  apply keeps_outside_bind; [apply keeps_outside_set; compute_done|]. intros _.
  apply keeps_outside_bind; [apply keeps_outside_set; compute_done|]. intros _.
  apply keeps_outside_bind; [apply keeps_outside_set; compute_done|]. intros _.
  apply keeps_outside_bind; [apply keeps_outside_pop|]. intros gt.
  apply keeps_outside_bind; [apply keeps_outside_set; compute_done|]. intros _.
  apply keeps_outside_get.
Qed.

Lemma getitem_B_keeps_absent (env : Env) (d : dataset) (i' : Z) (j : nat) (k : string) (r : dict) :
  k ∉ output_names ->
  ds_records d !! j = Some r -> r !! k = None ->
  let d' := snd (getitem_B env d i') in
  ds_config d' = ds_config d /\ ds_format_prompt d' = ds_format_prompt d /\
  ds_len d' = ds_len d /\
  exists r', ds_records d' !! j = Some r' /\ r' !! k = None.
Proof.
  intros Hk Hj Hr d'. subst d'. unfold getitem_B.
  destruct (py_index (ds_len d) i') as [j'|]; [|simpl; eauto 6].
  destruct (ds_records d !! j') as [ex|] eqn:Hj'; [|simpl; eauto 6].
  destruct (getitem_body _ _ _ ex) as [res ex'] eqn:Hb. simpl.
  split; [done|]. split; [done|].
  split; [unfold ds_len; simpl; by rewrite length_insert|].
  destruct (decide (j = j')) as [<-|Hne].
  - exists ex'. rewrite list_lookup_insert_eq by (by apply lookup_lt_Some in Hj).
    split; [done|]. rewrite Hj in Hj'. injection Hj' as <-.
    destruct (ex' !! k) as [v|] eqn:Hv; [|done].
    pose proof (keeps_outside_body (ds_config d) env (ds_format_prompt d) r k v Hk) as H.
    rewrite Hb in H. simpl in H. rewrite (H Hv) in Hr. discriminate.
  - exists r. rewrite list_lookup_insert_ne by congruence. done.
Qed.

(** When the answer key is not one of the output names: after a successful
    [RLHFSelfDataset.__getitem__] at [index], every later access at [index]
    raises, whatever accesses (at any index, failing or not) come between. *)
Theorem getitem_B_later_accesses_fail (env : Env) (ds : dataset) (i : Z) (out : dict)
    (ds' : dataset) (between : list Z) :
  answer_key (ds_config ds) ∉ output_names ->
  getitem_B env ds i = (Ok out, ds') ->
  exists e, fst (getitem_B env (fold_left (fun d i' => snd (getitem_B env d i')) between ds') i)
            = Err e.
Proof.
  intros Hk H.
  unfold getitem_B in H.
  destruct (py_index (ds_len ds) i) as [j|] eqn:Hix; [|discriminate].
  destruct (ds_records ds !! j) as [example|] eqn:Hj; [|discriminate].
  destruct (getitem_body _ _ _ example) as [r ex'] eqn:Hb.
  injection H as -> <-.
  destruct (getitem_body_inv _ _ _ _ _ _ Hb)
    as (messages & ex1 & prompt & ids0 & mask0 & grid & ids & mask & pos & raw & gt
        & Hm & He & Hp & Ht & Hg & Hout & ->).
  set (ak := answer_key (ds_config ds)) in *.
  set (d0 := mk_dataset (ds_config ds) (ds_format_prompt ds) (<[j := out]> (ds_records ds))).
  assert (Inv : forall d, ds_config d = ds_config ds -> ds_len d = ds_len ds ->
            (exists r', ds_records d !! j = Some r' /\ r' !! ak = None) ->
            exists e, fst (getitem_B env (fold_left (fun d i' => snd (getitem_B env d i')) between d) i)
                      = Err e).
  { induction between as [|i' rest IH]; intros d Hc Hl (r' & Hr' & Ha).
    - simpl. unfold getitem_B. rewrite Hl, Hix, Hr'.
      destruct (getitem_body_no_answer (ds_config d) env (ds_format_prompt d) r')
        as [e He']; [by rewrite Hc | by rewrite Hc|].
      exists e. destruct (getitem_body _ _ _ r'). done.
    - simpl. destruct (getitem_B_keeps_absent env d i' j ak r' Hk Hr' Ha) as (Hc' & _ & Hl' & Hr'').
      apply IH; [by rewrite Hc' | by rewrite Hl' | done]. }
  apply (Inv d0); [done | unfold d0, ds_len; simpl; by rewrite length_insert|].
  exists out. split.
  - simpl. rewrite list_lookup_insert_eq by (by apply lookup_lt_Some in Hj). done.
  - rewrite Hout. pose proof Hk as Hk'. split_not_out Hk'.
    rewrite lookup_insert_ne by done. by rewrite lookup_delete_eq.
Qed.

Lemma getitem_body_encode_err (cfg : config) (env : Env) (fmt : option string) (example ex1 : dict)
    (messages : list message) (e : exn) :
  build_messages cfg env fmt example = Ok messages ->
  encode_stage cfg env messages example = (Err e, ex1) ->
  getitem_body cfg env fmt example = (Err e, ex1).
Proof.
  intros Hm He. unfold getitem_body, mbind, M_bind, get_dict, lift.
  rewrite Hm. cbv beta iota. unfold mbind, M_bind in He |- *. by rewrite He.
Qed.

Lemma getitem_at_body_err (env : Env) (ds : dataset) (i : Z) (j : nat) (example ex1 : dict) (e : exn) :
  py_index (ds_len ds) i = Some j -> ds_records ds !! j = Some example ->
  getitem_body (ds_config ds) env (ds_format_prompt ds) example = (Err e, ex1) ->
  getitem_A env ds i = (Err e, ds) /\
  getitem_B env ds i = (Err e, mk_dataset (ds_config ds) (ds_format_prompt ds) (<[j := ex1]> (ds_records ds))).
Proof.
  intros Hix Hj Hb. unfold getitem_A, getitem_B. rewrite Hix, Hj, Hb. done.
Qed.

(** When processing the images of a record fails, [RLHFDataset] leaves its
    records unchanged, while [RLHFSelfDataset] has already popped the image
    key from the stored record. *)
Theorem getitem_image_failure_pops (env : Env) (ds : dataset) (i : Z) (j : nat) (example : dict)
    (messages : list message) (p : Processor) (raw : val) (e : exn) :
  let cfg := ds_config ds in
  py_index (ds_len ds) i = Some j ->
  ds_records ds !! j = Some example ->
  build_messages cfg env (ds_format_prompt ds) example = Ok messages ->
  processor env = Some p ->
  example !! image_key cfg = Some raw ->
  (vs ← py_iter raw; mapM (fun im => process_image env im (min_pixels cfg) (max_pixels cfg)) vs)
    = Err e ->
  getitem_A env ds i = (Err e, ds) /\
  getitem_B env ds i
    = (Err e, mk_dataset cfg (ds_format_prompt ds)
                (<[j := delete (image_key cfg) example]> (ds_records ds))).
Proof.
  intros cfg Hix Hj Hm Hp Hi Him.
  apply (getitem_at_body_err env ds i j example); [done|done|].
  apply (getitem_body_encode_err _ _ _ _ _ messages); [done|].
  unfold encode_stage, mbind, M_bind, has_key, lift, pop.
  subst cfg. rewrite Hi, bool_decide_eq_true_2 by done. rewrite Hp, Hi.
  unfold mbind in Him. by rewrite Him.
Qed.

(** A record with an image field read without a processor raises
    [AttributeError] in both variants, before any mutation. *)
Theorem getitem_image_without_processor (env : Env) (ds : dataset) (i : Z) (j : nat)
    (example : dict) (messages : list message) (raw : val) :
  let cfg := ds_config ds in
  py_index (ds_len ds) i = Some j ->
  ds_records ds !! j = Some example ->
  build_messages cfg env (ds_format_prompt ds) example = Ok messages ->
  processor env = None ->
  example !! image_key cfg = Some raw ->
  exists msg, getitem_A env ds i = (Err (AttributeError msg), ds) /\
              getitem_B env ds i = (Err (AttributeError msg), ds).
Proof.
  intros cfg Hix Hj Hm Hp Hi.
  eexists.
  destruct (getitem_at_body_err env ds i j example example (AttributeError "'NoneType' object has no attribute 'apply_chat_template'") Hix Hj)
    as [HA HB].
  { apply (getitem_body_encode_err _ _ _ _ _ messages); [done|].
    unfold encode_stage, mbind, M_bind, has_key, lift.
    subst cfg. rewrite Hi, bool_decide_eq_true_2 by done. by rewrite Hp. }
  split; [exact HA|]. rewrite HB. rewrite list_insert_id by done. by destruct ds.
Qed.



Lemma getitem_B_stores_output_witness :
  exists out ds',
    getitem_B sample_env_B sample_ds_B 0 = (Ok out, ds') /\
    getitem_A sample_env_B sample_ds_B 0 = (Ok out, sample_ds_B) /\
    ds' = mk_dataset sample_config_B None [out].
Proof.
  pose (r := getitem_B sample_env_B sample_ds_B 0).
  assert (H : r = (Ok (match fst r with Ok o => o | Err _ => ∅ end), snd r)) by reflexivity.
  eexists _, _. split; [exact H|].
  destruct (getitem_B_stores_output _ _ _ _ _ H) as [HA (j & Hix & ->)].
  split; [exact HA|]. vm_compute in Hix. injection Hix as <-. reflexivity.
Defined.

Lemma getitem_B_later_accesses_fail_witness :
  exists out ds' e,
    (answer_key (ds_config sample_ds_B) ∉ output_names) /\
    getitem_B sample_env_B sample_ds_B 0 = (Ok out, ds') /\
    fst (getitem_B sample_env_B
           (fold_left (fun d i' => snd (getitem_B sample_env_B d i')) [0; -1; 5]%Z ds') 0) = Err e.
Proof.
  pose (r := getitem_B sample_env_B sample_ds_B 0).
  assert (H : r = (Ok (match fst r with Ok o => o | Err _ => ∅ end), snd r)) by reflexivity.
  assert (Hk : answer_key (ds_config sample_ds_B) ∉ output_names) by compute_done.
  destruct (getitem_B_later_accesses_fail _ _ _ _ _ [0; -1; 5]%Z Hk H) as [e He].
  eexists _, _, e. split; [exact Hk|]. split; [exact H|exact He].
Defined.

Lemma getitem_image_failure_pops_witness :
  let ex := image_record "<image>What is it?" "a cat" [VStr "cat.png"] in
  let ds := mk_dataset default_config None [ex] in
  getitem_A (sample_env (Some sample_processor)) ds 0
    = (Err (TypeError "'>' not supported between instances of 'int' and 'NoneType'"), ds) /\
  getitem_B (sample_env (Some sample_processor)) ds 0
    = (Err (TypeError "'>' not supported between instances of 'int' and 'NoneType'"),
       mk_dataset default_config None [text_record "<image>What is it?" "a cat"]).
Proof.
  intros ex ds.
  assert (Hix : py_index (ds_len ds) 0 = Some 0%nat) by reflexivity.
  assert (Hj : ds_records ds !! 0%nat = Some ex) by reflexivity.
  pose (m := build_messages (ds_config ds) (sample_env (Some sample_processor)) (ds_format_prompt ds) ex).
  assert (Hm : m = Ok (match m with Ok ms => ms | Err _ => [] end)) by reflexivity.
  assert (Hi : ex !! image_key (ds_config ds) = Some (VList [VStr "cat.png"])) by reflexivity.
  destruct (getitem_image_failure_pops (sample_env (Some sample_processor)) ds 0 0 ex _
              sample_processor _ (TypeError "'>' not supported between instances of 'int' and 'NoneType'")
              Hix Hj Hm eq_refl Hi eq_refl) as [HA HB].
  split; [exact HA|]. rewrite HB. reflexivity.
Defined.

Lemma getitem_image_without_processor_witness :
  let ex := image_record "<image>What is it?" "a cat" [VStr "cat.png"] in
  let ds := mk_dataset (sample_config 128 "error") None [ex] in
  exists msg,
    getitem_A (sample_env None) ds 0 = (Err (AttributeError msg), ds) /\
    getitem_B (sample_env None) ds 0 = (Err (AttributeError msg), ds).
Proof.
  intros ex ds.
  assert (Hix : py_index (ds_len ds) 0 = Some 0%nat) by reflexivity.
  assert (Hj : ds_records ds !! 0%nat = Some ex) by reflexivity.
  pose (m := build_messages (ds_config ds) (sample_env None) (ds_format_prompt ds) ex).
  assert (Hm : m = Ok (match m with Ok ms => ms | Err _ => [] end)) by reflexivity.
  assert (Hi : ex !! image_key (ds_config ds) = Some (VList [VStr "cat.png"])) by reflexivity.
  exact (getitem_image_without_processor (sample_env None) ds 0 0 ex _ _ Hix Hj Hm eq_refl Hi).
Defined.



(** ** Construction: locator, filter, annotation entries *)

Lemma count_at_cons c rest :
  count_occ_str "@" (String c rest) = 0 -> c <> "@"%char /\ count_occ_str "@" rest = 0.
Proof.
  cbn [count_occ_str]. cbn [String.prefix].
  destruct (ascii_dec "@" c) as [<-|Hc].
  - rewrite prefix_nil. simpl. lia.
  - intros H. split; [congruence|lia].
Qed.

Lemma split_fuel_no_at f s cur :
  count_occ_str "@" s = 0 -> String.length s <= f ->
  split_fuel f "@" s cur = [sappend cur s].
Proof.
  revert f cur; induction s as [|c rest IH]; intros f cur Hc Hf.
  - destruct f; simpl; by rewrite ?sappend_nil_r.
  - destruct f as [|f]; [simpl in Hf; lia|].
    destruct (count_at_cons _ _ Hc) as [Hne Hr].
    cbn [split_fuel]. cbn [String.prefix].
    destruct (ascii_dec "@" c) as [E|_]; [congruence|].
    rewrite IH by (simpl in Hf; lia). by rewrite <- sappend_assoc.
Qed.

Lemma split_fuel_at f p s cur :
  count_occ_str "@" p = 0 -> String.length p + S (String.length s) <= f ->
  split_fuel f "@" (sappend p (String "@" s)) cur
    = sappend cur p :: split_fuel (f - String.length p - 1) "@" s "".
Proof.
  revert f cur; induction p as [|c p IH]; intros f cur Hc Hf.
  - destruct f as [|f]; [simpl in Hf; lia|].
    rewrite sappend_nil_l. cbn [split_fuel String.prefix].
    destruct (ascii_dec "@" "@") as [_|]; [|congruence]. rewrite prefix_nil.
    cbn [String.length String.substring]. rewrite substring_0_all by lia.
    rewrite sappend_nil_r. f_equal. f_equal. simpl. lia.
  - destruct f as [|f]; [simpl in Hf; lia|].
    destruct (count_at_cons _ _ Hc) as [Hne Hr].
    rewrite sappend_cons. cbn [split_fuel String.prefix].
    destruct (ascii_dec "@" c) as [E|_]; [congruence|].
    rewrite IH by (simpl in Hf; lia). rewrite <- sappend_assoc.
    f_equal; f_equal; simpl; lia.
Qed.

Lemma length_sappend_at p s :
  String.length (sappend p (String "@" s)) = String.length p + S (String.length s).
Proof. by rewrite length_sappend. Qed.

(** The data locator: a path without "@" reads the "train" split, "p@s"
    reads split [s] of [p], and a locator with two "@" raises [ValueError]
    at the unpacking. *)
Theorem split_locator_cases (p s r : string) :
  count_occ_str "@" p = 0 -> count_occ_str "@" s = 0 ->
  split_locator p = Ok (p, "train") /\
  split_locator (sappend p (String "@" s)) = Ok (p, s) /\
  exists msg, split_locator (sappend p (String "@" (sappend s (String "@" r)))) = Err (ValueError msg).
Proof.
  intros Hp Hs. unfold split_locator, py_split.
  split; [|split].
  - by rewrite split_fuel_no_at by done.
  - rewrite split_fuel_at, length_sappend_at by (rewrite ?length_sappend_at; lia).
    replace (String.length p + S (String.length s) - String.length p - 1) with (String.length s) by lia.
    by rewrite split_fuel_no_at by done.
  - rewrite split_fuel_at by (rewrite ?length_sappend_at; lia).
    rewrite length_sappend_at.
    rewrite split_fuel_at by (rewrite ?length_sappend_at; lia).
    destruct (split_fuel _ "@" r "") as [|x xs] eqn:E; [by apply split_fuel_nonempty in E|].
    eauto.
Qed.

Lemma filterM_filter {A} (f : A -> res bool) (l l' : list A) :
  filterM f l = Ok l' ->
  (forall x, In x l -> exists b, f x = Ok b) /\
  l' = List.filter (fun x => match f x with Ok b => b | Err _ => false end) l.
Proof.
  revert l'; induction l as [|x xs IH]; intros l' H; simpl in H.
  - injection H as <-. done.
  - destruct (f x) as [b|e] eqn:Hx; [|discriminate].
    destruct (filterM f xs) as [ys|e] eqn:Hxs; [|discriminate].
    injection H as <-.
    destruct (IH ys eq_refl) as (H1 & ->).
    split.
    + intros y [<-|Hy]; eauto.
    + simpl. rewrite Hx. by destruct b.
Qed.

(** [RLHFDataset.__init__]: without the filter the loaded records are kept
    as they are; with it (the default) every loaded record must have the
    prompt key and be accepted or rejected without error by
    [_filter_overlong_prompts], and the records kept are exactly
    [filter(_filter_overlong_prompts, records)]. *)
Theorem construct_A_filtering (cfg : config) (env : Env) (data_path : string) (ds : dataset) :
  construct_A cfg env data_path = Ok ds ->
  exists path split records,
    split_locator data_path = Ok (path, split) /\
    (if isdir env path then load_parquet_dir env path
     else if isfile env path then load_parquet_file env path
     else load_remote env path split) = Ok records /\
    read_format_prompt env cfg = Ok (ds_format_prompt ds) /\
    ds_config ds = cfg /\
    (filter_overlong_prompts cfg = false -> ds_records ds = records) /\
    (filter_overlong_prompts cfg = true ->
       let keep := filter_overlong_prompts_pred cfg env (ds_format_prompt ds) in
       (forall ex, In ex records -> is_Some (ex !! prompt_key cfg) /\ exists b, keep ex = Ok b) /\
       ds_records ds = List.filter (fun ex => match keep ex with Ok b => b | Err _ => false end) records).
Proof.
  unfold construct_A, mbind, res_bind.
  destruct (split_locator data_path) as [[path split]|e] eqn:Hs; [|discriminate].
  destruct (if isdir env path then _ else _) as [records|e] eqn:Hl; [|discriminate].
  destruct (read_format_prompt env cfg) as [fmt|e] eqn:Hf; [|discriminate].
  destruct (filter_overlong_prompts cfg) eqn:Hfl.
  - destruct (filterM _ records) as [records'|e] eqn:Hm; [|discriminate].
    intros [= <-]. exists path, split, records. simpl.
    do 4 (split; [done|]). split; [discriminate|]. intros _.
    destruct (filterM_filter _ _ _ Hm) as (H1 & H2).
    split; [|done].
    intros ex Hin. destruct (H1 ex Hin) as [b Hb]. split; [|eauto].
    unfold filter_overlong_prompts_pred, build_messages, mbind, res_bind in Hb.
    destruct (ex !! prompt_key cfg); [done|discriminate].
  - intros [= <-]. exists path, split, records. simpl.
    do 4 (split; [done|]). split; [done|discriminate].
Qed.

(** [RLHFSelfDataset.__init__] with [image_root] None (its default) raises
    on every non-empty annotation array. *)
Theorem construct_B_needs_image_root (cfg : config) (env : Env) (data_path : string)
    (path split : string) (annotations ele : val) (rest : list val) :
  image_root cfg = None ->
  split_locator data_path = Ok (path, split) ->
  read_json env path = Ok annotations ->
  py_iter annotations = Ok (ele :: rest) ->
  image_root default_config = None /\ exists e, construct_B cfg env data_path = Err e.
Proof.
  intros Hr Hs Hj Hi. split; [done|].
  unfold construct_B, mbind, res_bind. rewrite Hs, Hj, Hi, Hr. simpl.
  destruct (entry_to_record None ele) as [r|e] eqn:He; [|eauto].
  exfalso. revert He. unfold entry_to_record, mbind, res_bind.
  destruct (py_getitem_str ele "img_id") as [v|e]; [|discriminate].
  destruct (as_str v); discriminate.
Qed.

Lemma split_locator_cases_witness :
  split_locator "data/math" = Ok ("data/math", "train") /\
  split_locator "data/math@test" = Ok ("data/math", "test") /\
  exists msg, split_locator "data/math@test@x" = Err (ValueError msg).
Proof.
  assert (Hp : count_occ_str "@" "data/math" = 0) by reflexivity.
  assert (Hs : count_occ_str "@" "test" = 0) by reflexivity.
  exact (split_locator_cases "data/math" "test" "x" Hp Hs).
Defined.

Lemma construct_A_filtering_witness :
  exists ds path split records,
    construct_A (sample_config 64 "error") sample_env_pairs "data.parquet" = Ok ds /\
    split_locator "data.parquet" = Ok (path, split) /\
    ds_records ds
      = List.filter (fun ex => match filter_overlong_prompts_pred (sample_config 64 "error")
                                       sample_env_pairs (ds_format_prompt ds) ex with
                               | Ok b => b | Err _ => false end) records /\
    ds_records ds = [text_record "What is 2+2?" "4"].
Proof.
  pose (r := construct_A (sample_config 64 "error") sample_env_pairs "data.parquet").
  assert (H : r = Ok (match r with Ok d => d | Err _ => mk_dataset default_config None [] end))
    by reflexivity.
  destruct (construct_A_filtering _ _ _ _ H)
    as (path & split & records & Hs & _ & _ & _ & _ & Hf).
  destruct (Hf eq_refl) as [_ Hfilter].
  exists (match r with Ok d => d | Err _ => mk_dataset default_config None [] end), path, split, records.
  split; [exact H|]. split; [exact Hs|]. split; [exact Hfilter|]. reflexivity.
Defined.

Lemma construct_B_needs_image_root_witness :
  exists e, construct_B default_config sample_env_B "annotations.json" = Err e.
Proof.
  assert (Hs : split_locator "annotations.json" = Ok ("annotations.json", "train")) by reflexivity.
  assert (Hj : read_json sample_env_B "annotations.json" = Ok (VList [sample_entry])) by reflexivity.
  assert (Hi : py_iter (VList [sample_entry]) = Ok [sample_entry]) by reflexivity.
  exact (proj2 (construct_B_needs_image_root default_config sample_env_B "annotations.json"
                  _ _ _ _ _ eq_refl Hs Hj Hi)).
Defined.
